(** * Shared Home Expense Tracker: the API of [api/index.py]

    A shallow embedding of the FastAPI backend: the five SQLAlchemy
    models, the pydantic request schemas, the JWT helpers, the
    authentication dependencies and the endpoint functions, written as
    programs of a small session monad, followed by the properties of
    the authentication gate, of the expense listing and of the
    purchase-to-expense linkage. *)

From Stdlib Require Import ZArith String Ascii List Bool Lia Floats.
From Stdlib Require Import Permutation Sorted.
Import ListNotations.

Local Open Scope string_scope.
Local Open Scope Z_scope.

(** ** Database models

    One module per model class, so that a column keeps the name it has
    in the source ([User.username], [Expense.category_id], ...).
    [DateTime] columns hold whole seconds since the epoch; [Float]
    columns hold binary64 values, as Python's [float] does. *)

Module User.
Record t := Build {
  id : Z;
  username : string;
  password : string;
  full_name : string;
  role : string;
  created_at : Z
}.
End User.

Module Category.
Record t := Build {
  id : Z;
  name : string;
  color : string;
  created_at : Z
}.
End Category.

Module Expense.
Record t := Build {
  id : Z;
  amount : float;
  category_id : Z;
  payment_mode : string;
  paid_by : Z;
  date : string;
  time : string;
  description : option string;
  created_at : Z
}.
End Expense.

Module ToBuyItem.
Record t := Build {
  id : Z;
  name : string;
  quantity : option string;
  target_date : string;
  priority : string;
  notes : option string;
  created_by : Z;
  purchased : bool;
  purchased_by : option Z;
  purchase_amount : option float;
  purchase_payment_mode : option string;
  purchase_date : option string;
  created_at : Z
}.
End ToBuyItem.

Module Settings.
Record t := Build {
  id : Z;
  key : string;
  value : string;
  updated_at : Z
}.
End Settings.

(** ** Pydantic schemas (request bodies) *)

Module UserCreate.
Record t := Build {
  username : string;
  password : string;
  full_name : string;
  role : string
}.
End UserCreate.

Module UserLogin.
Record t := Build { username : string; password : string }.
End UserLogin.

Module CategoryCreate.
Record t := Build { name : string; color : string }.
End CategoryCreate.

Module ExpenseCreate.
Record t := Build {
  amount : float;
  category_id : Z;
  payment_mode : string;
  paid_by : Z;
  date : string;
  time : string;
  description : option string
}.
End ExpenseCreate.

Module ToBuyItemCreate.
Record t := Build {
  name : string;
  quantity : option string;
  target_date : string;
  priority : string;
  notes : option string
}.
End ToBuyItemCreate.

Module ToBuyItemPurchase.
Record t := Build {
  purchased_by : Z;
  purchase_amount : float;
  purchase_payment_mode : string;
  purchase_date : string
}.
End ToBuyItemPurchase.

Module SettingsUpdate.
Record t := Build { currency_symbol : string; home_name : string }.
End SettingsUpdate.

(** ** The store

    A table is the list of its rows in insertion order together with
    the next value of its integer primary key. *)

Record Table (R : Type) := MkTable { rows : list R; next_id : Z }.
Arguments MkTable {R} _ _.
Arguments rows {R} _.
Arguments next_id {R} _.

Record Database := MkDatabase {
  users : Table User.t;
  categories : Table Category.t;
  expenses : Table Expense.t;
  to_buy_items : Table ToBuyItem.t;
  settings : Table Settings.t
}.

Definition empty_table {R : Type} : Table R := MkTable [] 1.

Definition empty_db : Database :=
  MkDatabase empty_table empty_table empty_table empty_table empty_table.

(** What the ORM does to the rows that reference a deleted parent.  A
    one-to-many [relationship] without a delete cascade sets the
    foreign key of every child to NULL when the parent is deleted; the
    flush fails when that column is [nullable=False]. *)

Definition nullify_purchased_by (uid : Z) (i : ToBuyItem.t) : ToBuyItem.t :=
  match ToBuyItem.purchased_by i with
  | Some p =>
      if p =? uid then
        ToBuyItem.Build (ToBuyItem.id i) (ToBuyItem.name i)
          (ToBuyItem.quantity i) (ToBuyItem.target_date i)
          (ToBuyItem.priority i) (ToBuyItem.notes i)
          (ToBuyItem.created_by i) (ToBuyItem.purchased i)
          None (ToBuyItem.purchase_amount i)
          (ToBuyItem.purchase_payment_mode i) (ToBuyItem.purchase_date i)
          (ToBuyItem.created_at i)
      else i
  | None => i
  end.

Definition orphan_user (uid : Z) (db : Database) : option Database :=
  if existsb (fun e => Expense.paid_by e =? uid) (rows (expenses db))
     || existsb (fun i => ToBuyItem.created_by i =? uid)
          (rows (to_buy_items db))
  then None
  else Some (MkDatabase (users db) (categories db) (expenses db)
               (MkTable (map (nullify_purchased_by uid)
                           (rows (to_buy_items db)))
                  (next_id (to_buy_items db)))
               (settings db)).

Definition orphan_category (cid : Z) (db : Database) : option Database :=
  if existsb (fun e => Expense.category_id e =? cid) (rows (expenses db))
  then None else Some db.

(** A mapped class: where its table lives in the database, its primary
    key, and the treatment of its children on delete. *)

Record Model (R : Type) := MkModel {
  table : Database -> Table R;
  with_table : Table R -> Database -> Database;
  pk : R -> Z;
  orphan : Z -> Database -> option Database
}.
Arguments MkModel {R} _ _ _ _.
Arguments table {R} _ _.
Arguments with_table {R} _ _ _.
Arguments pk {R} _ _.
Arguments orphan {R} _ _ _.

Definition UserT : Model User.t :=
  MkModel users
    (fun t db => MkDatabase t (categories db) (expenses db)
                   (to_buy_items db) (settings db))
    User.id orphan_user.

Definition CategoryT : Model Category.t :=
  MkModel categories
    (fun t db => MkDatabase (users db) t (expenses db)
                   (to_buy_items db) (settings db))
    Category.id orphan_category.

Definition ExpenseT : Model Expense.t :=
  MkModel expenses
    (fun t db => MkDatabase (users db) (categories db) t
                   (to_buy_items db) (settings db))
    Expense.id (fun _ db => Some db).

Definition ToBuyItemT : Model ToBuyItem.t :=
  MkModel to_buy_items
    (fun t db => MkDatabase (users db) (categories db) (expenses db)
                   t (settings db))
    ToBuyItem.id (fun _ db => Some db).

Definition SettingsT : Model Settings.t :=
  MkModel settings
    (fun t db => MkDatabase (users db) (categories db) (expenses db)
                   (to_buy_items db) t)
    Settings.id (fun _ db => Some db).

(** ** Sessions and the request monad

    [stored] is the committed database and [pending] the session's
    view of it (committed rows plus the writes not yet committed).
    [commits] records every state this session committed, oldest
    first.  [faults] schedules the outcome of the coming commits
    ([true]: the engine rejects that commit, for instance on a
    foreign key it enforces or on a lost connection; which engine
    runs behind [DATABASE_URL] is not part of the program);
    [flush_error] is set when a pending write cannot be flushed.
    [utcnow] is the clock of the request, in whole seconds, the
    resolution of the [exp] claim of a token. *)

Record Session := MkSession {
  stored : Database;
  pending : Database;
  commits : list Database;
  faults : list bool;
  flush_error : bool;
  utcnow : Z
}.

(** [SessionLocal()]: a fresh session on the committed database. *)
Definition SessionLocal (now : Z) (fs : list bool) (db : Database) : Session :=
  MkSession db db [] fs false now.

Record HTTPException := MkHTTPException {
  status_code : Z;
  detail : string;
  headers : list (string * string)
}.

(** The three ways a request ends: the endpoint returns, it raises an
    [HTTPException], or an exception it does not handle escapes (the
    framework answers 500). *)
Inductive result (A : Type) :=
| Returned (a : A)
| Raised (e : HTTPException)
| Unhandled.
Arguments Returned {A} _.
Arguments Raised {A} _.
Arguments Unhandled {A}.

Definition M (A : Type) : Type := Session -> result A * Session.

Definition ret {A : Type} (a : A) : M A := fun s => (Returned a, s).

Definition bind {A B : Type} (m : M A) (k : A -> M B) : M B :=
  fun s =>
    match m s with
    | (Returned a, s') => k a s'
    | (Raised e, s') => (Raised e, s')
    | (Unhandled, s') => (Unhandled, s')
    end.

Definition raise {A : Type} (e : HTTPException) : M A :=
  fun s => (Raised e, s).

Declare Scope request_scope.
Delimit Scope request_scope with request.
Notation "x <- m ;; k" := (bind m (fun x => k))
  (at level 100, m at next level, right associativity) : request_scope.
Notation "m ;; k" := (bind m (fun _ => k))
  (at level 100, right associativity) : request_scope.
Local Open Scope request_scope.

(** *** Session operations *)

Definition set_pending (db : Database) (s : Session) : Session :=
  MkSession (stored s) db (commits s) (faults s) (flush_error s) (utcnow s).

(** [db.query(X).filter(p).first()]: the first matching row, in the
    order of insertion (which is the order of the primary key). *)
Definition db_first {R : Type} (X : Model R) (p : R -> bool) : M (option R) :=
  fun s => (Returned (find p (rows (table X (pending s)))), s).

(** [db.query(X).filter(p).all()] *)
Definition db_all {R : Type} (X : Model R) (p : R -> bool) : M (list R) :=
  fun s => (Returned (filter p (rows (table X (pending s)))), s).

(** [db.query(X).count()] *)
Definition db_count {R : Type} (X : Model R) : M Z :=
  fun s => (Returned (Z.of_nat (length (rows (table X (pending s))))), s).

(** [db.add(obj)]: [mk] builds the row from the primary key the table
    assigns and from the clock (the [default=datetime.utcnow]
    columns). *)
Definition db_add {R : Type} (X : Model R) (mk : Z -> Z -> R) : M R :=
  fun s =>
    let t := table X (pending s) in
    let row := mk (next_id t) (utcnow s) in
    (Returned row,
     set_pending
       (with_table X (MkTable (rows t ++ [row]) (next_id t + 1)) (pending s))
       s).

(** Attribute assignment on a loaded object: the row with that primary
    key is replaced at the next flush. *)
Definition db_update {R : Type} (X : Model R) (row : R) : M unit :=
  fun s =>
    let t := table X (pending s) in
    (Returned tt,
     set_pending
       (with_table X
          (MkTable
             (map (fun r => if pk X r =? pk X row then row else r) (rows t))
             (next_id t))
          (pending s))
       s).

(** [db.delete(obj)] *)
Definition db_delete {R : Type} (X : Model R) (row : R) : M unit :=
  fun s =>
    match orphan X (pk X row) (pending s) with
    | Some db =>
        let t := table X db in
        (Returned tt,
         set_pending
           (with_table X
              (MkTable
                 (filter (fun r => negb (pk X r =? pk X row)) (rows t))
                 (next_id t))
              db)
           s)
    | None =>
        (Returned tt,
         MkSession (stored s) (pending s) (commits s) (faults s) true
           (utcnow s))
    end.

(** [db.commit()]: flushes the pending writes and commits them; when
    the flush or the commit fails the transaction is rolled back and
    the error escapes. *)
Definition db_commit : M unit :=
  fun s =>
    match flush_error s, faults s with
    | false, [] =>
        (Returned tt,
         MkSession (pending s) (pending s) (commits s ++ [pending s]) []
           false (utcnow s))
    | false, false :: fs =>
        (Returned tt,
         MkSession (pending s) (pending s) (commits s ++ [pending s]) fs
           false (utcnow s))
    | false, true :: fs =>
        (Unhandled,
         MkSession (stored s) (stored s) (commits s) fs false (utcnow s))
    | true, fs =>
        (Unhandled,
         MkSession (stored s) (stored s) (commits s) fs false (utcnow s))
    end.

(** [db.refresh(obj)]: the row is read again by primary key. *)
Definition db_refresh {R : Type} (X : Model R) (row : R) : M R :=
  fun s =>
    match find (fun r => pk X r =? pk X row) (rows (table X (pending s))) with
    | Some r => (Returned r, s)
    | None => (Unhandled, s)
    end.

(** Python truthiness of the optional values the endpoints test. *)
Definition truthy {A : Type} (o : option A) : bool :=
  match o with Some _ => true | None => false end.

Definition truthy_int (o : option Z) : bool :=
  match o with Some n => negb (n =? 0) | None => false end.

Definition truthy_str (o : option string) : bool :=
  match o with Some s => negb (s =? "")%string | None => false end.

(** [datetime.utcnow()], in whole seconds. *)
Definition datetime_utcnow : M Z := fun s => (Returned (utcnow s), s).

(** [order_by]: the rows sorted on a comparison [le] (insertion sort;
    the database engine is free to use any sorting method). *)
Fixpoint insert_by {R : Type} (le : R -> R -> bool) (x : R) (l : list R)
  : list R :=
  match l with
  | [] => [x]
  | y :: l' => if le x y then x :: y :: l' else y :: insert_by le x l'
  end.

Fixpoint order_by {R : Type} (le : R -> R -> bool) (l : list R) : list R :=
  match l with
  | [] => []
  | x :: l' => insert_by le x (order_by le l')
  end.

(** ** JWT configuration and helpers *)

Definition ALGORITHM : string := "HS256".
Definition ACCESS_TOKEN_EXPIRE_HOURS : Z := 24.

(** [timedelta(hours=h)], in seconds. *)
Definition timedelta_hours (h : Z) : Z := h * 3600.

(** The claims of a token payload that this program writes and reads. *)
Record Payload := MkPayload { sub : option string; exp : option Z }.

(** A bearer credential as a client sends it: a string that is not a
    compact JWS, or the three parts of one (the header's algorithm, the
    payload, the signature). *)
Inductive Token :=
| Malformed (raw : string)
| Jws (alg : string) (payload : Payload) (signature : string).

(** The subclasses of [jwt.exceptions.InvalidTokenError] that decoding
    can raise here. *)
Inductive InvalidTokenError :=
| DecodeError
| InvalidAlgorithmError
| InvalidSignatureError
| ExpiredSignatureError.

Record TokenResponse := MkTokenResponse {
  access_token : Token;
  token_type : string;
  user : User.t
}.

Definition bearer_challenge : list (string * string) :=
  [("WWW-Authenticate", "Bearer")].

Definition HTTP_400_BAD_REQUEST : Z := 400.
Definition HTTP_401_UNAUTHORIZED : Z := 401.
Definition HTTP_403_FORBIDDEN : Z := 403.

(** The query of [get_expenses]: a conjunction of criteria. *)
Definition Query (R : Type) : Type := R -> bool.

Definition query_all {R : Type} : Query R := fun _ => true.

Definition filter_by {R : Type} (q : Query R) (p : R -> bool) : Query R :=
  fun r => q r && p r.

(** [if n: query = query.filter(...)] for an optional integer and an
    optional string: [None], [0] and the empty string are falsy. *)
Definition if_int {R : Type} (o : option Z) (p : Z -> R -> bool)
  (q : Query R) : Query R :=
  match o with
  | Some n => if n =? 0 then q else filter_by q (p n)
  | None => q
  end.

Definition if_str {R : Type} (o : option string) (p : string -> R -> bool)
  (q : Query R) : Query R :=
  match o with
  | Some x => if (x =? "")%string then q else filter_by q (p x)
  | None => q
  end.

(** [Expense.date.desc(), Expense.time.desc()]: byte-wise string
    comparison, latest first. *)
Definition date_time_desc (e1 e2 : Expense.t) : bool :=
  match String.compare (Expense.date e2) (Expense.date e1) with
  | Lt => true
  | Gt => false
  | Eq => String.leb (Expense.time e2) (Expense.time e1)
  end.

(** [ToBuyItem.target_date], ascending. *)
Definition target_date_asc (i1 i2 : ToBuyItem.t) : bool :=
  String.leb (ToBuyItem.target_date i1) (ToBuyItem.target_date i2).

(** The seven bytes of the seeded currency symbol, as they stand in
    the source file. *)
Definition seeded_currency_symbol : string :=
  string_of_list_ascii
    (map ascii_of_nat [195; 162; 226; 128; 154; 194; 185]%nat).

Section Api.

(** The signing secret of the deployment, and HMAC-SHA256 of a
    payload under a key (the signature [jwt.encode] computes). *)
Variable SECRET_KEY : string.
Variable hs256 : string -> Payload -> string.

(** [jwt.encode(payload, key, algorithm=alg)] *)
Definition jwt_encode (payload : Payload) (key alg : string) : Token :=
  Jws alg payload (hs256 key payload).

(** [jwt.decode(token, key, algorithms=algs)] at time [now]: the
    signature is verified first, then the expiry ([exp <= now] is
    expired). *)
Definition jwt_decode (token : Token) (key : string) (algs : list string)
  (now : Z) : InvalidTokenError + Payload :=
  match token with
  | Malformed _ => inl DecodeError
  | Jws alg payload signature =>
      if negb (existsb (String.eqb alg) algs) then inl InvalidAlgorithmError
      else if negb (signature =? hs256 key payload)%string
           then inl InvalidSignatureError
      else match exp payload with
           | Some e => if e <=? now then inl ExpiredSignatureError
                       else inr payload
           | None => inr payload
           end
  end.

(** "Create JWT access token" *)
Definition create_access_token (data : Payload) (expires_delta : option Z)
  : M Token :=
  now <- datetime_utcnow ;;
  let expire :=
    match expires_delta with
    | Some d => if d =? 0
                then now + timedelta_hours ACCESS_TOKEN_EXPIRE_HOURS
                else now + d
    | None => now + timedelta_hours ACCESS_TOKEN_EXPIRE_HOURS
    end in
  let to_encode := MkPayload (sub data) (Some expire) in
  ret (jwt_encode to_encode SECRET_KEY ALGORITHM).

(** "Decode and validate JWT token" *)
Definition decode_access_token (token : Token) : M (option string) :=
  now <- datetime_utcnow ;;
  match jwt_decode token SECRET_KEY [ALGORITHM] now with
  | inr payload =>
      match sub payload with
      | None => ret None
      | Some username => ret (Some username)
      end
  | inl _ => ret None
  end.

(** ** Authentication dependencies *)

(** "Get current user from JWT token" *)
Definition get_current_user (credentials : Token) : M User.t :=
  let token := credentials in
  username <- decode_access_token token ;;
  match username with
  | None =>
      raise (MkHTTPException HTTP_401_UNAUTHORIZED
               "Invalid or expired token" bearer_challenge)
  | Some username =>
      user <- db_first UserT
                (fun u => (User.username u =? username)%string) ;;
      match user with
      | None =>
          raise (MkHTTPException HTTP_401_UNAUTHORIZED
                   "User not found" bearer_challenge)
      | Some user => ret user
      end
  end.

(** "Verify user has admin role" *)
Definition get_admin_user (current_user : User.t) : M User.t :=
  if negb (User.role current_user =? "admin")%string
  then raise (MkHTTPException HTTP_403_FORBIDDEN
                "Admin access required" [])
  else ret current_user.

(** [Depends(get_current_user)] and [Depends(get_admin_user)]: the
    dependency runs before the endpoint and hands it its result. *)
Definition Depends_current_user {A : Type} (credentials : Token)
  (endpoint : User.t -> M A) : M A :=
  current_user <- get_current_user credentials ;;
  endpoint current_user.

Definition Depends_admin_user {A : Type} (credentials : Token)
  (endpoint : User.t -> M A) : M A :=
  current_user <- get_current_user credentials ;;
  admin <- get_admin_user current_user ;;
  endpoint admin.

(** ** Authentication *)

(** "Login and get JWT token" *)
Definition login (user_login : UserLogin.t) : M TokenResponse :=
  user <- db_first UserT
            (fun u =>
               (User.username u =? UserLogin.username user_login)%string
               && (User.password u =? UserLogin.password user_login)%string) ;;
  match user with
  | None =>
      raise (MkHTTPException HTTP_401_UNAUTHORIZED
               "Invalid credentials" [])
  | Some user =>
      access_token <- create_access_token
                        (MkPayload (Some (User.username user)) None) None ;;
      ret (MkTokenResponse access_token "bearer" user)
  end.

(** "Get current user info (validates token)" *)
Definition get_current_user_info (current_user : User.t) : M User.t :=
  ret current_user.

(** ** Startup event: the seed rows, each kind only into an empty
    table. *)
Definition startup_event : M unit :=
  n <- db_count UserT ;;
  (if n =? 0 then
     db_add UserT (fun id now =>
       User.Build id "admin" "admin" "Home Admin" "admin" now) ;;
     db_add UserT (fun id now =>
       User.Build id "user1" "user1" "User One" "user" now) ;;
     db_add UserT (fun id now =>
       User.Build id "user2" "user2" "User Two" "user" now) ;;
     db_commit
   else ret tt) ;;
  n <- db_count CategoryT ;;
  (if n =? 0 then
     db_add CategoryT (fun id now =>
       Category.Build id "Groceries" "#22c55e" now) ;;
     db_add CategoryT (fun id now =>
       Category.Build id "Rent" "#3b82f6" now) ;;
     db_add CategoryT (fun id now =>
       Category.Build id "Utilities" "#f97316" now) ;;
     db_add CategoryT (fun id now =>
       Category.Build id "Transportation" "#8b5cf6" now) ;;
     db_add CategoryT (fun id now =>
       Category.Build id "Entertainment" "#ec4899" now) ;;
     db_commit
   else ret tt) ;;
  n <- db_count SettingsT ;;
  (if n =? 0 then
     db_add SettingsT (fun id now =>
       Settings.Build id "currency_symbol" seeded_currency_symbol now) ;;
     db_add SettingsT (fun id now =>
       Settings.Build id "home_name" "Shared Home" now) ;;
     db_commit
   else ret tt).

(** ** Users *)

Definition get_users (current_user : User.t) : M (list User.t) :=
  db_all UserT query_all.

Definition create_user (user : UserCreate.t) (admin : User.t) : M User.t :=
  existing_user <- db_first UserT
    (fun u => (User.username u =? UserCreate.username user)%string) ;;
  if truthy existing_user then
    raise (MkHTTPException HTTP_400_BAD_REQUEST
             "Username already exists" [])
  else
    new_user <- db_add UserT (fun id now =>
      User.Build id (UserCreate.username user) (UserCreate.password user)
        (UserCreate.full_name user) (UserCreate.role user) now) ;;
    db_commit ;;
    new_user <- db_refresh UserT new_user ;;
    ret new_user.

Definition delete_user (user_id : Z) (admin : User.t) : M string :=
  user <- db_first UserT (fun u => User.id u =? user_id) ;;
  match user with
  | None => raise (MkHTTPException 404 "User not found" [])
  | Some user =>
      db_delete UserT user ;;
      db_commit ;;
      ret "User deleted successfully"
  end.

(** ** Categories *)

Definition get_categories (current_user : User.t) : M (list Category.t) :=
  db_all CategoryT query_all.

Definition create_category (category : CategoryCreate.t)
  (current_user : User.t) : M Category.t :=
  existing <- db_first CategoryT
    (fun c => (Category.name c =? CategoryCreate.name category)%string) ;;
  if truthy existing then
    raise (MkHTTPException HTTP_400_BAD_REQUEST
             "Category already exists" [])
  else
    new_category <- db_add CategoryT (fun id now =>
      Category.Build id (CategoryCreate.name category)
        (CategoryCreate.color category) now) ;;
    db_commit ;;
    new_category <- db_refresh CategoryT new_category ;;
    ret new_category.

Definition delete_category (category_id : Z) (admin : User.t) : M string :=
  category <- db_first CategoryT (fun c => Category.id c =? category_id) ;;
  match category with
  | None => raise (MkHTTPException 404 "Category not found" [])
  | Some category =>
      db_delete CategoryT category ;;
      db_commit ;;
      ret "Category deleted successfully"
  end.

(** ** Expenses *)

Definition get_expenses (category_id paid_by : option Z)
  (payment_mode start_date end_date : option string)
  (current_user : User.t) : M (list Expense.t) :=
  let query := query_all in
  let query := if_int category_id
    (fun category_id e => Expense.category_id e =? category_id) query in
  let query := if_int paid_by
    (fun paid_by e => Expense.paid_by e =? paid_by) query in
  let query := if_str payment_mode
    (fun payment_mode e =>
       (Expense.payment_mode e =? payment_mode)%string) query in
  let query := if_str start_date
    (fun start_date e => String.leb start_date (Expense.date e)) query in
  let query := if_str end_date
    (fun end_date e => String.leb (Expense.date e) end_date) query in
  found <- db_all ExpenseT query ;;
  ret (order_by date_time_desc found).

Definition create_expense (expense : ExpenseCreate.t)
  (current_user : User.t) : M Expense.t :=
  new_expense <- db_add ExpenseT (fun id now =>
    Expense.Build id (ExpenseCreate.amount expense)
      (ExpenseCreate.category_id expense)
      (ExpenseCreate.payment_mode expense)
      (ExpenseCreate.paid_by expense) (ExpenseCreate.date expense)
      (ExpenseCreate.time expense) (ExpenseCreate.description expense)
      now) ;;
  db_commit ;;
  new_expense <- db_refresh ExpenseT new_expense ;;
  ret new_expense.

Definition delete_expense (expense_id : Z) (current_user : User.t)
  : M string :=
  expense <- db_first ExpenseT (fun e => Expense.id e =? expense_id) ;;
  match expense with
  | None => raise (MkHTTPException 404 "Expense not found" [])
  | Some expense =>
      db_delete ExpenseT expense ;;
      db_commit ;;
      ret "Expense deleted successfully"
  end.

(** ** To-buy items *)

Definition get_to_buy_items (purchased : option bool)
  (current_user : User.t) : M (list ToBuyItem.t) :=
  let query := query_all in
  let query :=
    match purchased with
    | Some purchased =>
        filter_by query
          (fun i => Bool.eqb (ToBuyItem.purchased i) purchased)
    | None => query
    end in
  found <- db_all ToBuyItemT query ;;
  ret (order_by target_date_asc found).

Definition create_to_buy_item (item : ToBuyItemCreate.t)
  (current_user : User.t) : M ToBuyItem.t :=
  new_item <- db_add ToBuyItemT (fun id now =>
    ToBuyItem.Build id (ToBuyItemCreate.name item)
      (ToBuyItemCreate.quantity item) (ToBuyItemCreate.target_date item)
      (ToBuyItemCreate.priority item) (ToBuyItemCreate.notes item)
      (User.id current_user) false None None None None now) ;;
  db_commit ;;
  new_item <- db_refresh ToBuyItemT new_item ;;
  ret new_item.

(** The five assignments [item.purchased = True], [item.purchased_by
    = ...], ... of [mark_item_purchased]. *)
Definition set_purchase (item : ToBuyItem.t)
  (purchase_info : ToBuyItemPurchase.t) : ToBuyItem.t :=
  ToBuyItem.Build (ToBuyItem.id item) (ToBuyItem.name item)
    (ToBuyItem.quantity item) (ToBuyItem.target_date item)
    (ToBuyItem.priority item) (ToBuyItem.notes item)
    (ToBuyItem.created_by item)
    true
    (Some (ToBuyItemPurchase.purchased_by purchase_info))
    (Some (ToBuyItemPurchase.purchase_amount purchase_info))
    (Some (ToBuyItemPurchase.purchase_payment_mode purchase_info))
    (Some (ToBuyItemPurchase.purchase_date purchase_info))
    (ToBuyItem.created_at item).

Definition mark_item_purchased (item_id : Z)
  (purchase_info : ToBuyItemPurchase.t) (current_user : User.t)
  : M ToBuyItem.t :=
  item <- db_first ToBuyItemT (fun i => ToBuyItem.id i =? item_id) ;;
  match item with
  | None => raise (MkHTTPException 404 "Item not found" [])
  | Some item =>
      let item := set_purchase item purchase_info in
      db_update ToBuyItemT item ;;
      (* Also create an expense entry *)
      category <- db_first CategoryT
        (fun c => (Category.name c =? "To-Buy Items")%string) ;;
      category <-
        match category with
        | None =>
            category <- db_add CategoryT (fun id now =>
              Category.Build id "To-Buy Items" "#6366f1" now) ;;
            db_commit ;;
            db_refresh CategoryT category
        | Some category => ret category
        end ;;
      db_add ExpenseT (fun id now =>
        Expense.Build id
          (ToBuyItemPurchase.purchase_amount purchase_info)
          (Category.id category)
          (ToBuyItemPurchase.purchase_payment_mode purchase_info)
          (ToBuyItemPurchase.purchased_by purchase_info)
          (ToBuyItemPurchase.purchase_date purchase_info)
          "12:00"
          (Some ("Purchase: " ++ ToBuyItem.name item))
          now) ;;
      db_commit ;;
      item <- db_refresh ToBuyItemT item ;;
      ret item
  end.

Definition delete_to_buy_item (item_id : Z) (current_user : User.t)
  : M string :=
  item <- db_first ToBuyItemT (fun i => ToBuyItem.id i =? item_id) ;;
  match item with
  | None => raise (MkHTTPException 404 "Item not found" [])
  | Some item =>
      db_delete ToBuyItemT item ;;
      db_commit ;;
      ret "Item deleted successfully"
  end.

(** ** Settings *)

(** [{s.key: s.value for s in settings}]: the pairs in row order. *)
Definition get_settings (current_user : User.t)
  : M (list (string * string)) :=
  found <- db_all SettingsT query_all ;;
  ret (map (fun s => (Settings.key s, Settings.value s)) found).

(** One half of [update_settings]: the row with that key gets the
    value, or a new row is added.  The ORM writes a row only when an
    attribute really changed, and [onupdate] stamps [updated_at] on
    that write. *)
Definition upsert_setting (key value : string) : M unit :=
  setting <- db_first SettingsT (fun s => (Settings.key s =? key)%string) ;;
  match setting with
  | Some setting =>
      if (Settings.value setting =? value)%string then ret tt
      else
        now <- datetime_utcnow ;;
        db_update SettingsT
          (Settings.Build (Settings.id setting) (Settings.key setting)
             value now)
  | None =>
      db_add SettingsT (fun id now => Settings.Build id key value now) ;;
      ret tt
  end.

Definition update_settings (settings_update : SettingsUpdate.t)
  (admin : User.t) : M string :=
  (* Update currency symbol *)
  upsert_setting "currency_symbol"
    (SettingsUpdate.currency_symbol settings_update) ;;
  (* Update home name *)
  upsert_setting "home_name" (SettingsUpdate.home_name settings_update) ;;
  db_commit ;;
  ret "Settings updated successfully".

(** ** Routes: each endpoint behind the dependencies it declares *)

Definition api_me (credentials : Token) : M User.t :=
  Depends_current_user credentials get_current_user_info.

Definition api_get_users (credentials : Token) : M (list User.t) :=
  Depends_current_user credentials get_users.

Definition api_create_user (credentials : Token) (user : UserCreate.t)
  : M User.t :=
  Depends_admin_user credentials (create_user user).

Definition api_delete_user (credentials : Token) (user_id : Z) : M string :=
  Depends_admin_user credentials (delete_user user_id).

Definition api_get_categories (credentials : Token) : M (list Category.t) :=
  Depends_current_user credentials get_categories.

Definition api_create_category (credentials : Token)
  (category : CategoryCreate.t) : M Category.t :=
  Depends_current_user credentials (create_category category).

Definition api_delete_category (credentials : Token) (category_id : Z)
  : M string :=
  Depends_admin_user credentials (delete_category category_id).

Definition api_get_expenses (credentials : Token)
  (category_id paid_by : option Z)
  (payment_mode start_date end_date : option string) : M (list Expense.t) :=
  Depends_current_user credentials
    (get_expenses category_id paid_by payment_mode start_date end_date).

Definition api_create_expense (credentials : Token)
  (expense : ExpenseCreate.t) : M Expense.t :=
  Depends_current_user credentials (create_expense expense).

Definition api_delete_expense (credentials : Token) (expense_id : Z)
  : M string :=
  Depends_current_user credentials (delete_expense expense_id).

Definition api_get_to_buy_items (credentials : Token)
  (purchased : option bool) : M (list ToBuyItem.t) :=
  Depends_current_user credentials (get_to_buy_items purchased).

Definition api_create_to_buy_item (credentials : Token)
  (item : ToBuyItemCreate.t) : M ToBuyItem.t :=
  Depends_current_user credentials (create_to_buy_item item).

Definition api_mark_item_purchased (credentials : Token) (item_id : Z)
  (purchase_info : ToBuyItemPurchase.t) : M ToBuyItem.t :=
  Depends_current_user credentials (mark_item_purchased item_id purchase_info).

Definition api_delete_to_buy_item (credentials : Token) (item_id : Z)
  : M string :=
  Depends_current_user credentials (delete_to_buy_item item_id).

Definition api_get_settings (credentials : Token)
  : M (list (string * string)) :=
  Depends_current_user credentials get_settings.

Definition api_update_settings (credentials : Token)
  (settings_update : SettingsUpdate.t) : M string :=
  Depends_admin_user credentials (update_settings settings_update).

(** ** The store's operations as data

    One constructor per endpoint function (and one for the startup
    event), with the arguments the function receives once its
    dependencies are resolved. *)

Inductive Operation :=
| Startup
| GetUsers (current_user : User.t)
| CreateUser (user : UserCreate.t) (admin : User.t)
| DeleteUser (user_id : Z) (admin : User.t)
| GetCategories (current_user : User.t)
| CreateCategory (category : CategoryCreate.t) (current_user : User.t)
| DeleteCategory (category_id : Z) (admin : User.t)
| GetExpenses (category_id paid_by : option Z)
    (payment_mode start_date end_date : option string)
    (current_user : User.t)
| CreateExpense (expense : ExpenseCreate.t) (current_user : User.t)
| DeleteExpense (expense_id : Z) (current_user : User.t)
| GetToBuyItems (purchased : option bool) (current_user : User.t)
| CreateToBuyItem (item : ToBuyItemCreate.t) (current_user : User.t)
| MarkItemPurchased (item_id : Z) (purchase_info : ToBuyItemPurchase.t)
    (current_user : User.t)
| DeleteToBuyItem (item_id : Z) (current_user : User.t)
| GetSettings (current_user : User.t)
| UpdateSettings (settings_update : SettingsUpdate.t) (admin : User.t).

Definition void {A : Type} (m : M A) : M unit := m ;; ret tt.

Definition run (op : Operation) : M unit :=
  match op with
  | Startup => startup_event
  | GetUsers u => void (get_users u)
  | CreateUser user admin => void (create_user user admin)
  | DeleteUser user_id admin => void (delete_user user_id admin)
  | GetCategories u => void (get_categories u)
  | CreateCategory category u => void (create_category category u)
  | DeleteCategory category_id admin =>
      void (delete_category category_id admin)
  | GetExpenses c p m sd ed u => void (get_expenses c p m sd ed u)
  | CreateExpense expense u => void (create_expense expense u)
  | DeleteExpense expense_id u => void (delete_expense expense_id u)
  | GetToBuyItems purchased u => void (get_to_buy_items purchased u)
  | CreateToBuyItem item u => void (create_to_buy_item item u)
  | MarkItemPurchased item_id purchase_info u =>
      void (mark_item_purchased item_id purchase_info u)
  | DeleteToBuyItem item_id u => void (delete_to_buy_item item_id u)
  | GetSettings u => void (get_settings u)
  | UpdateSettings settings_update admin =>
      void (update_settings settings_update admin)
  end.

(** The committed database after one request served at time [now] by
    a fresh session whose commits all succeed. *)
Definition apply_op (now : Z) (op : Operation) (db : Database) : Database :=
  stored (snd (run op (SessionLocal now [] db))).

(** The databases reachable from the empty one by the operations that
    [allowed] admits. *)
Inductive reachable (allowed : Operation -> bool) : Database -> Prop :=
| reach_empty : reachable allowed empty_db
| reach_step (db : Database) (now : Z) (op : Operation) :
    reachable allowed db -> allowed op = true ->
    reachable allowed (apply_op now op db).

Definition any_operation (op : Operation) : bool := true.

Definition not_delete_expense (op : Operation) : bool :=
  match op with
  | DeleteExpense _ _ => false
  | _ => true
  end.

(** ** Notions used by the statements *)

(** The primary keys of a table lie below its counter (so that a new
    row gets a key no stored row has). *)
Definition keys_below {R : Type} (X : Model R) (db : Database) : Prop :=
  Forall (fun r => pk X r < next_id (table X db)) (rows (table X db)).

(** The row [create_expense] builds from its payload. *)
Definition expense_of (expense : ExpenseCreate.t) (id now : Z) : Expense.t :=
  Expense.Build id (ExpenseCreate.amount expense)
    (ExpenseCreate.category_id expense) (ExpenseCreate.payment_mode expense)
    (ExpenseCreate.paid_by expense) (ExpenseCreate.date expense)
    (ExpenseCreate.time expense) (ExpenseCreate.description expense) now.

(** [db] with one more row in the table of [X]. *)
Definition inserted {R : Type} (X : Model R) (row : R) (db : Database)
  : Database :=
  with_table X
    (MkTable (rows (table X db) ++ [row]) (next_id (table X db) + 1)) db.

(** Byte-wise order on strings, as [String.compare] decides it. *)
Definition str_lt (a b : string) : Prop := String.ltb a b = true.
Definition str_le (a b : string) : Prop := String.leb a b = true.

(** Latest first: by date descending, then by time descending. *)
Definition latest_first (e1 e2 : Expense.t) : Prop :=
  str_lt (Expense.date e2) (Expense.date e1)
  \/ (Expense.date e1 = Expense.date e2
      /\ str_le (Expense.time e2) (Expense.time e1)).

(** An optional filter read by presence: absent, or a value the column
    has to equal. *)
Definition opt_is_int (o : option Z) (v : Z) : bool :=
  match o with Some n => v =? n | None => true end.

Definition opt_is_str (o : option string) (v : string) : bool :=
  match o with Some x => (v =? x)%string | None => true end.

(** The expenses a listing with the date range [start_date, end_date]
    and the optional category, payer and payment mode is to return:
    all supplied criteria hold, the range is inclusive. *)
Definition selected (category_id paid_by : option Z)
  (payment_mode : option string) (start_date end_date : string)
  (e : Expense.t) : bool :=
  opt_is_int category_id (Expense.category_id e)
  && opt_is_int paid_by (Expense.paid_by e)
  && opt_is_str payment_mode (Expense.payment_mode e)
  && String.leb start_date (Expense.date e)
  && String.leb (Expense.date e) end_date.

(** The listing claim for one request: the endpoint returns exactly the
    selected rows, latest first. *)
Definition date_range_listing (category_id paid_by : option Z)
  (payment_mode : option string) (start_date end_date : string)
  (current_user : User.t) (s : Session) : Prop :=
  exists l : list Expense.t,
    get_expenses category_id paid_by payment_mode
      (Some start_date) (Some end_date) current_user s = (Returned l, s)
    /\ Permutation l
         (filter (selected category_id paid_by payment_mode
                    start_date end_date)
            (rows (expenses (pending s))))
    /\ StronglySorted latest_first l.

(** The exceptions of the authentication gate. *)
Definition invalid_credentials : HTTPException :=
  MkHTTPException 401 "Invalid credentials" [].

Definition invalid_or_expired_token : HTTPException :=
  MkHTTPException 401 "Invalid or expired token" bearer_challenge.

Definition token_user_not_found : HTTPException :=
  MkHTTPException 401 "User not found" bearer_challenge.

Definition admin_access_required : HTTPException :=
  MkHTTPException 403 "Admin access required" [].

(** The error kinds of the gate, as a caller tells them apart: by the
    status, and for a 401 by the presence of the bearer challenge. *)
Definition InvalidCredentials (e : HTTPException) : Prop :=
  status_code e = 401 /\ headers e = [].

Definition InvalidOrExpiredToken (e : HTTPException) : Prop :=
  status_code e = 401 /\ headers e = bearer_challenge.

Definition ForbiddenNotAdmin (e : HTTPException) : Prop :=
  status_code e = 403.

(** The credentials [user_login] are those of the stored user [u]. *)
Definition credentials_match (user_login : UserLogin.t) (u : User.t) : Prop :=
  User.username u = UserLogin.username user_login
  /\ User.password u = UserLogin.password user_login.

(** The [unique=True] constraint on [User.username]. *)
Definition unique_usernames (db : Database) : Prop :=
  NoDup (map User.username (rows (users db))).

(** The three ways a token fails to resolve at the session [s]: it was
    issued with the default lifetime and that lifetime has passed; its
    signature is not the one the secret gives; it decodes to a
    username no stored user has. *)
Definition lifetime_passed (token : Token) (s : Session) : Prop :=
  exists (data : Payload) (s0 : Session),
    create_access_token data None s0 = (Returned token, s0)
    /\ timedelta_hours ACCESS_TOKEN_EXPIRE_HOURS <= utcnow s - utcnow s0.

Definition signature_fails (token : Token) : Prop :=
  exists (alg : string) (payload : Payload) (signature : string),
    token = Jws alg payload signature
    /\ signature <> hs256 SECRET_KEY payload.

Definition user_is_gone (token : Token) (s : Session) : Prop :=
  exists username : string,
    decode_access_token token s = (Returned (Some username), s)
    /\ forall u : User.t,
         In u (rows (users (pending s))) -> User.username u <> username.

(** The category of purchases and the rows [mark_item_purchased]
    writes. *)
Definition named_to_buy (c : Category.t) : bool :=
  (Category.name c =? "To-Buy Items")%string.

Definition to_buy_category (id now : Z) : Category.t :=
  Category.Build id "To-Buy Items" "#6366f1" now.

Definition purchase_expense (id category_id now : Z)
  (purchase_info : ToBuyItemPurchase.t) (item : ToBuyItem.t) : Expense.t :=
  Expense.Build id (ToBuyItemPurchase.purchase_amount purchase_info)
    category_id (ToBuyItemPurchase.purchase_payment_mode purchase_info)
    (ToBuyItemPurchase.purchased_by purchase_info)
    (ToBuyItemPurchase.purchase_date purchase_info)
    "12:00" (Some ("Purchase: " ++ ToBuyItem.name item)) now.

(** The to-buy rows once the item [item] carries the purchase. *)
Definition purchased_rows (item : ToBuyItem.t)
  (purchase_info : ToBuyItemPurchase.t) (l : list ToBuyItem.t)
  : list ToBuyItem.t :=
  map (fun i => if ToBuyItem.id i =? ToBuyItem.id item
                then set_purchase item purchase_info else i) l.

(** The whole effect of a purchase on the database: the item carries
    the purchase and the expense is stored. *)
Definition purchase_stored (now : Z) (item : ToBuyItem.t)
  (purchase_info : ToBuyItemPurchase.t) (category : Category.t)
  (db : Database) : Database :=
  MkDatabase (users db) (categories db)
    (MkTable
       (rows (expenses db)
        ++ [purchase_expense (next_id (expenses db)) (Category.id category)
              now purchase_info item])
       (next_id (expenses db) + 1))
    (MkTable (purchased_rows item purchase_info (rows (to_buy_items db)))
       (next_id (to_buy_items db)))
    (settings db).

(** An expense row that carries the purchase data of the item [i]. *)
Definition expense_of_purchase (i : ToBuyItem.t) (e : Expense.t) : Prop :=
  ToBuyItem.purchased_by i = Some (Expense.paid_by e)
  /\ ToBuyItem.purchase_amount i = Some (Expense.amount e)
  /\ ToBuyItem.purchase_payment_mode i = Some (Expense.payment_mode e)
  /\ ToBuyItem.purchase_date i = Some (Expense.date e)
  /\ Expense.time e = "12:00"
  /\ Expense.description e = Some ("Purchase: " ++ ToBuyItem.name i).

(** Every purchased item has an expense row of its purchase. *)
Definition purchases_have_expense (db : Database) : Prop :=
  forall i : ToBuyItem.t,
    In i (rows (to_buy_items db)) ->
    ToBuyItem.purchased i = true ->
    exists e : Expense.t,
      In e (rows (expenses db)) /\ expense_of_purchase i e.

(** Every purchased item has exactly one expense row of its purchase. *)
Definition purchases_have_one_expense (db : Database) : Prop :=
  forall i : ToBuyItem.t,
    In i (rows (to_buy_items db)) ->
    ToBuyItem.purchased i = true ->
    exists e : Expense.t,
      (In e (rows (expenses db)) /\ expense_of_purchase i e)
      /\ forall e' : Expense.t,
           In e' (rows (expenses db)) -> expense_of_purchase i e' -> e' = e.

(** A request program preserves a property of sessions. *)
Definition preserves {A : Type} (J : Session -> Prop) (m : M A) : Prop :=
  forall s : Session, J s -> J (snd (m s)).

(** The link holds of what is committed and of what is pending. *)
Definition linked (s : Session) : Prop :=
  purchases_have_expense (stored s) /\ purchases_have_expense (pending s).

(** A model whose table is neither the to-buy items nor the expenses. *)
Definition off_link {R : Type} (X : Model R) : Prop :=
  forall (t : Table R) (db : Database),
    to_buy_items (with_table X t db) = to_buy_items db
    /\ expenses (with_table X t db) = expenses db.

(** The part [f] of the database satisfies [P], in what the session
    has committed and in what it has pending. *)
Definition keeps {T : Type} (f : Database -> T) (P : T -> Prop) (s : Session)
  : Prop :=
  P (f (stored s)) /\ P (f (pending s)).

(** The part [f] of the database is out of reach of the writes to the
    table of [X] and of the deletes from it. *)
Definition apart {T R : Type} (f : Database -> T) (X : Model R) : Prop :=
  (forall (t : Table R) (db : Database), f (with_table X t db) = f db)
  /\ (forall (k : Z) (db db' : Database),
        orphan X k db = Some db' -> f db' = f db).

(** The constraints of the schema that the statements above assume:
    usernames are unique, and the keys of the expenses lie below the
    counter of their table. *)
Definition schema_ok (db : Database) : Prop :=
  unique_usernames db /\ keys_below ExpenseT db.

(** ** Sample data *)

Definition user1 : User.t := User.Build 2 "user1" "user1" "User One" "user" 0.

Definition rent_january : Expense.t :=
  Expense.Build 1 1200%float 2 "upi" 2 "2024-01-15" "09:30"
    (Some "January rent") 0.

Definition groceries_february : Expense.t :=
  Expense.Build 2 64.5%float 1 "cash" 3 "2024-02-03" "18:05" None 0.

Definition two_expenses_db : Database :=
  MkDatabase empty_table empty_table
    (MkTable [rent_january; groceries_february] 3) empty_table empty_table.

(** The store after the startup event on an empty database, at time 0. *)
Definition seeded_db : Database :=
  Eval vm_compute in apply_op 0 Startup empty_db.

(** A key and a keyed digest to run the gate on sample requests. *)
Definition sample_key : string := "secret".

Definition sample_mac (key : string) (payload : Payload) : string :=
  key ++ "." ++ match sub payload with Some n => n | None => "" end.

(** A store with one item to buy and no "To-Buy Items" category yet. *)
Definition milk : ToBuyItem.t :=
  ToBuyItem.Build 1 "Milk" (Some "2 l") "2024-03-01" "medium" None 2
    false None None None None 0.

Definition milk_db : Database :=
  MkDatabase (users seeded_db) (categories seeded_db) empty_table
    (MkTable [milk] 2) (settings seeded_db).

Definition milk_purchase : ToBuyItemPurchase.t :=
  ToBuyItemPurchase.Build 2 3.25%float "cash" "2024-03-02".

Definition milk_item : ToBuyItemCreate.t :=
  ToBuyItemCreate.Build "Milk" (Some "2 l") "2024-03-01" "medium" None.

(** Three walks through the store, all starting with the startup
    event, the creation of the item and its purchase: the expense is
    then deleted, or the item is marked purchased a second time. *)
Definition milk_bought_db : Database :=
  apply_op 20 (MarkItemPurchased 1 milk_purchase user1)
    (apply_op 10 (CreateToBuyItem milk_item user1)
       (apply_op 0 Startup empty_db)).

Definition expense_deleted_db : Database :=
  apply_op 30 (DeleteExpense 1 user1) milk_bought_db.

Definition milk_bought_twice_db : Database :=
  apply_op 30 (MarkItemPurchased 1 milk_purchase user1) milk_bought_db.

(** Sample credentials under [sample_key]: the token a login of
    "user1" at time 0 yields, a token with a forged signature, and a
    well-signed token of a user who is not stored. *)
Definition user1_login : UserLogin.t := UserLogin.Build "user1" "user1".

Definition user1_payload : Payload := MkPayload (Some "user1") (Some 86400).

Definition user1_token : Token :=
  Jws "HS256" user1_payload (sample_mac sample_key user1_payload).

Definition forged_token : Token := Jws "HS256" user1_payload "forged".

Definition ghost_payload : Payload := MkPayload (Some "ghost") (Some 86400).

Definition ghost_token : Token :=
  Jws "HS256" ghost_payload (sample_mac sample_key ghost_payload).

(** An expense whose category and payer are stored nowhere. *)
Definition dangling_expense : ExpenseCreate.t :=
  ExpenseCreate.Build 15%float 99 "card" 77 "2024-04-01" "10:00" None.

(** ** Further notions *)

(** The 404 answers of the endpoints that look a row up by its key. *)
Definition not_found (what : string) : HTTPException :=
  MkHTTPException 404 (what ++ " not found") [].

(** No pending row of the table of [X] has the key [k]. *)
Definition absent {R : Type} (X : Model R) (k : Z) (s : Session) : Prop :=
  find (fun r => pk X r =? k) (rows (table X (pending s))) = None.

(** The rows [create_category] and [create_user] build from their
    payloads. *)
Definition category_of (category : CategoryCreate.t) (id now : Z)
  : Category.t :=
  Category.Build id (CategoryCreate.name category)
    (CategoryCreate.color category) now.

Definition user_of (user : UserCreate.t) (id now : Z) : User.t :=
  User.Build id (UserCreate.username user) (UserCreate.password user)
    (UserCreate.full_name user) (UserCreate.role user) now.

(** A fresh session that has committed [db'] once and returned. *)
Definition committed_once (now : Z) (db' : Database) : Session :=
  MkSession db' db' [db'] [] false now.

Definition pantry : CategoryCreate.t := CategoryCreate.Build "Pantry" "#a3e635".

Definition rent_again : CategoryCreate.t := CategoryCreate.Build "Rent" "#000000".

Definition carol : UserCreate.t :=
  UserCreate.Build "carol" "s3cret" "Carol" "user".

(** The users after "user1" was deleted and the name given to a new
    account with the admin role. *)
Definition user1_again : UserCreate.t :=
  UserCreate.Build "user1" "changed" "Someone Else" "admin".

Definition renamed_db : Database :=
  apply_op 70 (CreateUser user1_again user1)
    (apply_op 60 (DeleteUser 2 user1) seeded_db).

(** Ascending target dates. *)
Definition earliest_first (i1 i2 : ToBuyItem.t) : Prop :=
  str_le (ToBuyItem.target_date i1) (ToBuyItem.target_date i2).

(** The tables the startup event leaves: a table that holds rows as it
    is, an empty table with the seed rows. *)
Definition seed_users (now : Z) (t : Table User.t) : Table User.t :=
  match rows t with
  | [] =>
      MkTable
        [User.Build (next_id t) "admin" "admin" "Home Admin" "admin" now;
         User.Build (next_id t + 1) "user1" "user1" "User One" "user" now;
         User.Build (next_id t + 1 + 1) "user2" "user2" "User Two" "user" now]
        (next_id t + 1 + 1 + 1)
  | _ :: _ => t
  end.

Definition seed_categories (now : Z) (t : Table Category.t)
  : Table Category.t :=
  match rows t with
  | [] =>
      MkTable
        [Category.Build (next_id t) "Groceries" "#22c55e" now;
         Category.Build (next_id t + 1) "Rent" "#3b82f6" now;
         Category.Build (next_id t + 1 + 1) "Utilities" "#f97316" now;
         Category.Build (next_id t + 1 + 1 + 1) "Transportation" "#8b5cf6" now;
         Category.Build (next_id t + 1 + 1 + 1 + 1) "Entertainment" "#ec4899"
           now]
        (next_id t + 1 + 1 + 1 + 1 + 1)
  | _ :: _ => t
  end.

Definition seed_settings (now : Z) (t : Table Settings.t)
  : Table Settings.t :=
  match rows t with
  | [] =>
      MkTable
        [Settings.Build (next_id t) "currency_symbol" seeded_currency_symbol
           now;
         Settings.Build (next_id t + 1) "home_name" "Shared Home" now]
        (next_id t + 1 + 1)
  | _ :: _ => t
  end.

(** The operations that commit at most once. *)
Definition commits_once (op : Operation) : bool :=
  match op with
  | Startup | MarkItemPurchased _ _ _ => false
  | _ => true
  end.

(** The operations that may write each table. *)
Definition writes_users (op : Operation) : bool :=
  match op with
  | Startup | CreateUser _ _ | DeleteUser _ _ => true
  | _ => false
  end.

Definition writes_categories (op : Operation) : bool :=
  match op with
  | Startup | CreateCategory _ _ | DeleteCategory _ _
  | MarkItemPurchased _ _ _ => true
  | _ => false
  end.

Definition writes_expenses (op : Operation) : bool :=
  match op with
  | CreateExpense _ _ | DeleteExpense _ _ | MarkItemPurchased _ _ _ => true
  | _ => false
  end.

Definition writes_to_buy_items (op : Operation) : bool :=
  match op with
  | CreateToBuyItem _ _ | MarkItemPurchased _ _ _ | DeleteToBuyItem _ _
  | DeleteUser _ _ => true
  | _ => false
  end.

Definition writes_settings (op : Operation) : bool :=
  match op with
  | Startup | UpdateSettings _ _ => true
  | _ => false
  end.

(** The row [create_to_buy_item] builds for the caller [creator]. *)
Definition item_of (item : ToBuyItemCreate.t) (creator id now : Z)
  : ToBuyItem.t :=
  ToBuyItem.Build id (ToBuyItemCreate.name item)
    (ToBuyItemCreate.quantity item) (ToBuyItemCreate.target_date item)
    (ToBuyItemCreate.priority item) (ToBuyItemCreate.notes item)
    creator false None None None None now.

(** The seeded administrator and a token for that account. *)
Definition admin_user : User.t :=
  User.Build 1 "admin" "admin" "Home Admin" "admin" 0.

Definition admin_payload : Payload := MkPayload (Some "admin") (Some 86400).

Definition admin_token : Token :=
  Jws "HS256" admin_payload (sample_mac sample_key admin_payload).

(** The primary key of a table: pairwise distinct, and below the
    counter that assigns it. *)
Definition table_ok {R : Type} (key : R -> Z) (t : Table R) : Prop :=
  NoDup (map key (rows t))
  /\ Forall (fun r => key r < next_id t) (rows t).

(** The [primary_key] and [unique] constraints the models declare. *)
Definition constraints_ok (db : Database) : Prop :=
  table_ok User.id (users db)
  /\ table_ok Category.id (categories db)
  /\ table_ok Expense.id (expenses db)
  /\ table_ok ToBuyItem.id (to_buy_items db)
  /\ table_ok Settings.id (settings db)
  /\ NoDup (map User.username (rows (users db)))
  /\ NoDup (map Category.name (rows (categories db)))
  /\ NoDup (map Settings.key (rows (settings db))).

(** The table of [X] answers to its own writes and is left alone by
    what a delete does to the children. *)
Definition lawful {R : Type} (X : Model R) : Prop :=
  (forall (t : Table R) (db : Database), table X (with_table X t db) = t)
  /\ (forall (k : Z) (db db' : Database),
        orphan X k db = Some db' -> table X db' = table X db).

(** The settings table with its key constraint and its unique [key]
    column. *)
Definition settings_ok (t : Table Settings.t) : Prop :=
  table_ok Settings.id t /\ NoDup (map Settings.key (rows t)).

(** Looking a key up in the mapping [get_settings] returns (setting
    keys being unique, the first pair with the key is the only one). *)
Definition lookup (k : string) (l : list (string * string)) : option string :=
  option_map snd (find (fun p => (fst p =? k)%string) l).

(** The value the pending settings hold for a key. *)
Definition setting (k : string) (s : Session) : option string :=
  option_map Settings.value
    (find (fun r => (Settings.key r =? k)%string)
       (rows (settings (pending s)))).

(** The session fields a write to the pending database leaves alone. *)
Definition same_but_pending (s s' : Session) : Prop :=
  stored s' = stored s /\ commits s' = commits s /\ faults s' = faults s
  /\ flush_error s' = flush_error s /\ utcnow s' = utcnow s.

(** A settings payload for the sample requests. *)
Definition dollar_home : SettingsUpdate.t :=
  SettingsUpdate.Build "$" "Our Home".

(** ** Lemmas on tables *)

Lemma find_app_new {R : Type} (key : R -> Z) (l : list R) (row : R) (k : Z) :
  key row = k ->
  Forall (fun r => key r < k) l ->
  find (fun r => key r =? k) (l ++ [row]) = Some row.
Proof.
  intros Hk; induction 1 as [|r l Hr _ IH]; simpl.
  - now rewrite Hk, Z.eqb_refl.
  - replace (key r =? k) with false by (symmetry; apply Z.eqb_neq; lia).
    exact IH.
Qed.

Lemma find_replaced {R : Type} (key : R -> Z) (l : list R) (old row : R)
  (k : Z) :
  key row = k ->
  find (fun r => key r =? k) l = Some old ->
  find (fun r => key r =? k)
    (map (fun r => if key r =? k then row else r) l) = Some row.
Proof.
  intros Hk. induction l as [|r l IH]; simpl; [discriminate|].
  destruct (key r =? k) eqn:E; simpl.
  - now rewrite Hk, Z.eqb_refl.
  - rewrite E. exact IH.
Qed.

Lemma filter_query_all {R : Type} (l : list R) : filter query_all l = l.
Proof.
  induction l as [|r l IH]; simpl; [reflexivity | now rewrite IH].
Qed.

(** ** Creating an expense *)

(** C10: [create_expense] looks up neither the category nor the payer:
    whatever [category_id] and [paid_by] the payload carries, a fresh
    session whose commit succeeds inserts the row and returns it, and
    on no session at all does the endpoint raise an [HTTPException]. *)
Theorem create_expense_no_referential_check :
  forall (now : Z) (db : Database) (expense : ExpenseCreate.t)
         (current_user : User.t),
    keys_below ExpenseT db ->
    let row := expense_of expense (next_id (expenses db)) now in
    let db' := inserted ExpenseT row db in
    create_expense expense current_user (SessionLocal now [] db)
    = (Returned row, MkSession db' db' [db'] [] false now)
    /\ (forall (s : Session) (e : HTTPException),
          fst (create_expense expense current_user s) <> Raised e).
Proof.
  intros now db expense current_user Hkeys row db'. split.
  - unfold create_expense, bind, db_add, db_commit, db_refresh, ret; simpl.
    fold (expense_of expense (next_id (expenses db)) now). fold row.
    rewrite (find_app_new Expense.id (rows (expenses db)) row);
      [reflexivity | reflexivity | exact Hkeys].
  - intros s e.
    unfold create_expense, bind, db_add, db_commit, db_refresh, ret; simpl.
    destruct (flush_error s), (faults s) as [|[|] fs]; simpl;
      try discriminate;
      match goal with
      | |- context [find ?p ?l] => destruct (find p l)
      end; simpl; discriminate.
Qed.

(** ** Strings in byte-wise order *)

Lemma ascii_compare_lt_trans (a b c : ascii) :
  Ascii.compare a b = Lt -> Ascii.compare b c = Lt -> Ascii.compare a c = Lt.
Proof.
  unfold Ascii.compare. rewrite !N.compare_lt_iff. apply N.lt_trans.
Qed.

Lemma string_compare_refl (a : string) : String.compare a a = Eq.
Proof.
  induction a as [|x a IH]; simpl; [reflexivity|].
  unfold Ascii.compare. now rewrite N.compare_refl.
Qed.

Lemma string_compare_lt_trans (a b c : string) :
  String.compare a b = Lt -> String.compare b c = Lt ->
  String.compare a c = Lt.
Proof.
  revert b c; induction a as [|x a IH]; intros [|y b] [|z c]; simpl;
    try discriminate; try reflexivity.
  destruct (Ascii.compare x y) eqn:Hxy; try discriminate;
    destruct (Ascii.compare y z) eqn:Hyz; try discriminate; intros H1 H2.
  - apply Ascii.compare_eq_iff in Hxy, Hyz. subst.
    replace (Ascii.compare z z) with Eq
      by (unfold Ascii.compare; now rewrite N.compare_refl).
    eapply IH; eassumption.
  - apply Ascii.compare_eq_iff in Hxy. subst. now rewrite Hyz.
  - apply Ascii.compare_eq_iff in Hyz. subst. now rewrite Hxy.
  - now rewrite (ascii_compare_lt_trans x y z).
Qed.

Lemma string_leb_cases (a b : string) :
  String.leb a b = true <-> String.compare a b = Lt \/ a = b.
Proof.
  unfold String.leb. split.
  - destruct (String.compare a b) eqn:E; try discriminate; intros _.
    + right. now apply String.compare_eq_iff.
    + now left.
  - intros [-> | ->]; [reflexivity | now rewrite string_compare_refl].
Qed.

Lemma string_leb_trans (a b c : string) :
  String.leb a b = true -> String.leb b c = true -> String.leb a c = true.
Proof.
  rewrite !string_leb_cases. intros [H1 | ->] [H2 | ->]; auto.
  left. eapply string_compare_lt_trans; eassumption.
Qed.

Lemma string_leb_empty (a : string) : String.leb "" a = true.
Proof. now destruct a. Qed.

(** ** [order_by] sorts *)

Lemma insert_by_perm {R : Type} (le : R -> R -> bool) (x : R) (l : list R) :
  Permutation (insert_by le x l) (x :: l).
Proof.
  induction l as [|y l IH]; simpl; [reflexivity|].
  destruct (le x y); [reflexivity|].
  rewrite IH. apply perm_swap.
Qed.

Lemma order_by_perm {R : Type} (le : R -> R -> bool) (l : list R) :
  Permutation (order_by le l) l.
Proof.
  induction l as [|x l IH]; simpl; [reflexivity|].
  rewrite insert_by_perm. now constructor.
Qed.

Section Ordering.

Context {R : Type} (le : R -> R -> bool).
Hypothesis le_total : forall a b, le a b = true \/ le b a = true.
Hypothesis le_trans :
  forall a b c, le a b = true -> le b c = true -> le a c = true.

Let before (a b : R) : Prop := le a b = true.

Lemma insert_by_sorted (x : R) (l : list R) :
  StronglySorted before l -> StronglySorted before (insert_by le x l).
Proof.
  induction 1 as [|y l Hs IH Hy]; simpl.
  - repeat constructor.
  - destruct (le x y) eqn:E.
    + constructor; [now constructor|].
      constructor; [exact E|].
      eapply Forall_impl; [|exact Hy]. intros z Hz. now apply (le_trans x y z).
    + constructor; [exact IH|].
      assert (Hyx : before y x) by (destruct (le_total x y); congruence).
      eapply Permutation_Forall; [symmetry; apply insert_by_perm|].
      now constructor.
Qed.

Lemma order_by_sorted (l : list R) : StronglySorted before (order_by le l).
Proof.
  induction l as [|x l IH]; simpl; [constructor | now apply insert_by_sorted].
Qed.

End Ordering.

(** ** The order of the expense listing *)

Lemma date_time_desc_latest_first (e1 e2 : Expense.t) :
  date_time_desc e1 e2 = true <-> latest_first e1 e2.
Proof.
  unfold date_time_desc, latest_first, str_lt, str_le, String.ltb.
  destruct (String.compare (Expense.date e2) (Expense.date e1)) eqn:E.
  - apply String.compare_eq_iff in E. split.
    + intros H. right. now split.
    + intros [H | [_ H]]; [discriminate | exact H].
  - split; [now left | reflexivity].
  - split; [discriminate|]. intros [H | [H _]]; [discriminate|].
    rewrite H, string_compare_refl in E. discriminate.
Qed.

Lemma date_time_desc_total (e1 e2 : Expense.t) :
  date_time_desc e1 e2 = true \/ date_time_desc e2 e1 = true.
Proof.
  unfold date_time_desc.
  rewrite (String.compare_antisym (Expense.date e1) (Expense.date e2)).
  destruct (String.compare (Expense.date e2) (Expense.date e1)); simpl; auto.
  destruct (String.leb_total (Expense.time e1) (Expense.time e2)); auto.
Qed.

Lemma date_time_desc_trans (e1 e2 e3 : Expense.t) :
  date_time_desc e1 e2 = true -> date_time_desc e2 e3 = true ->
  date_time_desc e1 e3 = true.
Proof.
  rewrite !date_time_desc_latest_first. unfold latest_first, str_lt, str_le.
  unfold String.ltb.
  intros [H1 | [H1 T1]] [H2 | [H2 T2]].
  - left.
    destruct (String.compare (Expense.date e2) (Expense.date e1)) eqn:E1;
      try discriminate.
    destruct (String.compare (Expense.date e3) (Expense.date e2)) eqn:E2;
      try discriminate.
    now rewrite (string_compare_lt_trans _ _ _ E2 E1).
  - left. now rewrite H2 in H1.
  - left. now rewrite H1.
  - right. split; [congruence|]. eapply string_leb_trans; eassumption.
Qed.

Lemma order_by_date_time_desc (l : list Expense.t) :
  StronglySorted latest_first (order_by date_time_desc l).
Proof.
  pose proof (order_by_sorted date_time_desc date_time_desc_total
                date_time_desc_trans l) as H.
  induction H as [|e l' _ IH Hall]; constructor; [exact IH|].
  eapply Forall_impl; [|exact Hall].
  intros e'. apply date_time_desc_latest_first.
Qed.

(** ** Listing expenses *)

(** What [get_expenses] computes: the pending expense rows that pass
    the criteria built from the truthy arguments, sorted. *)
Lemma get_expenses_returns (category_id paid_by : option Z)
  (payment_mode start_date end_date : option string) (current_user : User.t)
  (s : Session) :
  get_expenses category_id paid_by payment_mode start_date end_date
    current_user s
  = (Returned
       (order_by date_time_desc
          (filter
             (if_str end_date
                (fun d e => String.leb (Expense.date e) d)
                (if_str start_date
                   (fun d e => String.leb d (Expense.date e))
                   (if_str payment_mode
                      (fun m e => (Expense.payment_mode e =? m)%string)
                      (if_int paid_by
                         (fun p e => Expense.paid_by e =? p)
                         (if_int category_id
                            (fun c e => Expense.category_id e =? c)
                            query_all)))))
             (rows (expenses (pending s))))),
     s).
Proof. reflexivity. Qed.

(** C9: the filters of the expense listing are applied by truthiness.
    A category or payer of [0], an empty payment mode, an empty start
    date and an empty end date each give the very listing obtained
    when that argument is omitted; with the end date [""] and nothing
    else supplied the listing holds every stored expense. *)
Theorem get_expenses_falsy_filter_is_omitted :
  forall (category_id paid_by : option Z)
         (payment_mode start_date end_date : option string)
         (current_user : User.t),
    get_expenses (Some 0) paid_by payment_mode start_date end_date
      current_user
    = get_expenses None paid_by payment_mode start_date end_date current_user
    /\ get_expenses category_id (Some 0) payment_mode start_date end_date
         current_user
       = get_expenses category_id None payment_mode start_date end_date
           current_user
    /\ get_expenses category_id paid_by (Some "") start_date end_date
         current_user
       = get_expenses category_id paid_by None start_date end_date
           current_user
    /\ get_expenses category_id paid_by payment_mode (Some "") end_date
         current_user
       = get_expenses category_id paid_by payment_mode None end_date
           current_user
    /\ get_expenses category_id paid_by payment_mode start_date (Some "")
         current_user
       = get_expenses category_id paid_by payment_mode start_date None
           current_user
    /\ (forall s : Session,
          exists l : list Expense.t,
            get_expenses None None None None (Some "") current_user s
            = (Returned l, s)
            /\ Permutation l (rows (expenses (pending s)))).
Proof.
  intros. repeat (split; [reflexivity|]).
  intros s. eexists. split; [apply get_expenses_returns|].
  simpl. rewrite filter_query_all. apply order_by_perm.
Qed.

(** C7, as amended: with a non-empty end date, and with the category,
    payer and payment mode either omitted or truthy (an identifier
    other than 0, a non-empty mode), the listing for the date range
    [start_date, end_date] returns exactly the expenses that satisfy
    all supplied criteria and whose date lies in the range, bounds
    included, ordered by date descending, then by time descending. *)
Theorem get_expenses_date_range :
  forall (category_id paid_by : option Z) (payment_mode : option string)
         (start_date end_date : string) (current_user : User.t)
         (s : Session),
    category_id <> Some 0 ->
    paid_by <> Some 0 ->
    payment_mode <> Some "" ->
    end_date <> "" ->
    date_range_listing category_id paid_by payment_mode start_date end_date
      current_user s.
Proof.
  intros c p m sd ed u s Hc Hp Hm Hed.
  eexists. split; [apply get_expenses_returns|]. split.
  - rewrite order_by_perm.
    erewrite filter_ext; [reflexivity|].
    intros e. unfold selected, if_int, if_str, filter_by, query_all; simpl.
    assert (Ec : forall o : option Z, o <> Some 0 ->
              match o with Some n => (n =? 0) = false | None => True end).
    { intros [n|] Hn; [|exact I]. apply Z.eqb_neq. congruence. }
    assert (Es : forall o : option string, o <> Some "" ->
              match o with
              | Some x => (x =? "")%string = false
              | None => True
              end).
    { intros [x|] Hx; [|exact I]. apply String.eqb_neq. congruence. }
    specialize (Ec c Hc) as Ec1. specialize (Ec p Hp) as Ec2.
    specialize (Es m Hm) as Es1.
    assert (Es2 : (ed =? "")%string = false) by now apply String.eqb_neq.
    rewrite Es2.
    destruct c as [c|], p as [p|], m as [m|];
      rewrite ?Ec1, ?Ec2, ?Es1; simpl;
      (destruct (sd =? "")%string eqn:Esd;
       [apply String.eqb_eq in Esd; subst sd; rewrite string_leb_empty
       |]);
      rewrite ?andb_true_r; reflexivity.
  - apply order_by_date_time_desc.
Qed.

(** C7 as stated fails: the range ["2024-01-01", ""] selects no
    expense, yet the listing returns both stored ones, because an
    empty end date is not applied. *)
Lemma date_range_listing_fails_on_empty_end_date :
  ~ date_range_listing None None None "2024-01-01" "" user1
      (SessionLocal 0 [] two_expenses_db).
Proof.
  intros [l [H [Hperm _]]].
  rewrite get_expenses_returns in H. injection H as <-.
  vm_compute in Hperm.
  apply Permutation_sym, Permutation_nil in Hperm. discriminate.
Qed.

(** ** The authentication gate *)

Lemma find_by_unique {R : Type} (key : R -> string) (l : list R) (u : R)
  (p : R -> bool) :
  NoDup (map key l) -> In u l -> p u = true ->
  (forall r, p r = true -> key r = key u) ->
  find p l = Some u.
Proof.
  intros Hnd Hin Hpu Hkey. induction l as [|a l IH]; [contradiction|].
  simpl in Hnd. inversion Hnd as [|? ? Hnotin Hnd']; subst. simpl.
  destruct Hin as [-> | Hin]; [now rewrite Hpu|].
  destruct (p a) eqn:Hpa; [|now apply IH].
  exfalso. apply Hnotin. rewrite (Hkey a Hpa). now apply in_map.
Qed.

Lemma login_returns (user_login : UserLogin.t) (s : Session) :
  login user_login s
  = match
      find (fun u =>
              (User.username u =? UserLogin.username user_login)%string
              && (User.password u =? UserLogin.password user_login)%string)
        (rows (users (pending s)))
    with
    | Some u =>
        (Returned
           (MkTokenResponse
              (jwt_encode
                 (MkPayload (Some (User.username u))
                    (Some (utcnow s + 24 * 3600)))
                 SECRET_KEY "HS256")
              "bearer" u), s)
    | None => (Raised invalid_credentials, s)
    end.
Proof.
  unfold login, bind, db_first. simpl.
  now destruct (find _ (rows (users (pending s)))).
Qed.

Lemma credentials_match_eqb (user_login : UserLogin.t) (u : User.t) :
  (User.username u =? UserLogin.username user_login)%string
  && (User.password u =? UserLogin.password user_login)%string = true
  <-> credentials_match user_login u.
Proof.
  unfold credentials_match. now rewrite andb_true_iff, !String.eqb_eq.
Qed.

(** C4: [login] succeeds exactly when some stored user has the
    submitted username and, by plain string equality, the submitted
    password.  On success the token is signed under the secret and
    carries that username as [sub] and the request's time plus 24
    hours as [exp]; the session is left as it was.  When no stored
    user matches, the request fails with 401 "Invalid credentials". *)
Theorem login_issues_token_iff_credentials_match :
  forall (user_login : UserLogin.t) (s : Session),
    ((exists u : User.t,
         In u (rows (users (pending s))) /\ credentials_match user_login u)
     <-> (exists r : TokenResponse, fst (login user_login s) = Returned r))
    /\ (forall r : TokenResponse,
          fst (login user_login s) = Returned r ->
          In (user r) (rows (users (pending s)))
          /\ credentials_match user_login (user r)
          /\ access_token r
             = jwt_encode
                 (MkPayload (Some (UserLogin.username user_login))
                    (Some (utcnow s + 24 * 3600)))
                 SECRET_KEY ALGORITHM
          /\ snd (login user_login s) = s)
    /\ ((forall u : User.t,
           In u (rows (users (pending s))) ->
           ~ credentials_match user_login u) ->
        login user_login s = (Raised invalid_credentials, s)
        /\ InvalidCredentials invalid_credentials).
Proof.
  intros user_login s. rewrite login_returns.
  destruct (find _ (rows (users (pending s)))) as [u|] eqn:Hfind.
  - destruct (find_some _ _ Hfind) as [Hin Hm].
    apply credentials_match_eqb in Hm.
    split; [|split].
    + split; [intros _; eexists; reflexivity | intros _; now exists u].
    + simpl. intros r [= <-]. simpl. destruct Hm as [Hn Hp].
      repeat split; try assumption. now rewrite Hn.
    + intros Hnone. destruct (Hnone u Hin Hm).
  - pose proof (find_none _ _ Hfind) as Hnone.
    split; [|split].
    + split; [|intros [r Hr]; discriminate].
      intros [u [Hin Hm]]. apply credentials_match_eqb in Hm.
      rewrite (Hnone u Hin) in Hm. discriminate.
    + intros r Hr. discriminate.
    + intros _. split; [reflexivity | now split].
Qed.

Lemma decode_access_token_returns (token : Token) (s : Session) :
  decode_access_token token s
  = (Returned
       match jwt_decode token SECRET_KEY [ALGORITHM] (utcnow s) with
       | inr payload => sub payload
       | inl _ => None
       end, s).
Proof.
  unfold decode_access_token, bind, datetime_utcnow. simpl.
  destruct (jwt_decode token SECRET_KEY [ALGORITHM] (utcnow s)) as [err|payload];
    [reflexivity|].
  now destruct (sub payload).
Qed.

Lemma get_current_user_returns (token : Token) (s : Session) :
  get_current_user token s
  = match jwt_decode token SECRET_KEY [ALGORITHM] (utcnow s) with
    | inr (MkPayload (Some username) _) =>
        match
          find (fun u => (User.username u =? username)%string)
            (rows (users (pending s)))
        with
        | Some u => (Returned u, s)
        | None => (Raised token_user_not_found, s)
        end
    | _ => (Raised invalid_or_expired_token, s)
    end.
Proof.
  unfold get_current_user, bind. rewrite decode_access_token_returns.
  destruct (jwt_decode token SECRET_KEY [ALGORITHM] (utcnow s))
    as [err|[[username|] e]]; try reflexivity.
  simpl. unfold db_first. simpl.
  now destruct (find _ (rows (users (pending s)))).
Qed.

(** The session is the same after the dependency as before it. *)
Lemma get_current_user_keeps_session (token : Token) (s : Session) :
  snd (get_current_user token s) = s.
Proof.
  rewrite get_current_user_returns.
  destruct (jwt_decode token SECRET_KEY [ALGORITHM] (utcnow s))
    as [err|[[username|] e]]; try reflexivity.
  now destruct (find _ (rows (users (pending s)))).
Qed.

(** Decoding a token signed under the secret, before its expiry. *)
Lemma jwt_decode_encode (payload : Payload) (e now : Z) :
  exp payload = Some e -> now < e ->
  jwt_decode (jwt_encode payload SECRET_KEY ALGORITHM) SECRET_KEY [ALGORITHM]
    now = inr payload.
Proof.
  intros He Hnow. unfold jwt_decode, jwt_encode. simpl.
  rewrite String.eqb_refl, He. simpl.
  replace (e <=? now) with false by (symmetry; apply Z.leb_gt; lia).
  reflexivity.
Qed.

(** Decoding any token at or after its expiry. *)
Lemma jwt_decode_expired (alg signature : string) (payload : Payload)
  (e now : Z) :
  exp payload = Some e -> e <= now ->
  exists err : InvalidTokenError,
    jwt_decode (Jws alg payload signature) SECRET_KEY [ALGORITHM] now
    = inl err.
Proof.
  intros He Hnow. unfold jwt_decode.
  destruct (negb (existsb (String.eqb alg) [ALGORITHM])); [now eexists|].
  destruct (negb (signature =? hs256 SECRET_KEY payload)%string);
    [now eexists|].
  rewrite He. replace (e <=? now) with true by (symmetry; apply Z.leb_le; lia).
  now eexists.
Qed.

(** C5: for a stored user's username and password, [login] succeeds
    and the token it issues, presented at once (and at any time
    before 24 hours have passed, to a session that sees the same
    users), resolves through [get_current_user] to that same user
    record.  Usernames are unique in the store, as the column
    declares. *)
Theorem login_then_get_current_user :
  forall (user_login : UserLogin.t) (u : User.t) (s : Session),
    unique_usernames (pending s) ->
    In u (rows (users (pending s))) ->
    credentials_match user_login u ->
    exists token : Token,
      login user_login s = (Returned (MkTokenResponse token "bearer" u), s)
      /\ get_current_user token s = (Returned u, s)
      /\ (forall s' : Session,
            users (pending s') = users (pending s) ->
            utcnow s' < utcnow s + 24 * 3600 ->
            get_current_user token s' = (Returned u, s')).
Proof.
  intros user_login u s Huniq Hin Hm.
  assert (Hlater : forall s' : Session,
            users (pending s') = users (pending s) ->
            utcnow s' < utcnow s + 24 * 3600 ->
            get_current_user
              (jwt_encode
                 (MkPayload (Some (User.username u))
                    (Some (utcnow s + 24 * 3600)))
                 SECRET_KEY "HS256") s' = (Returned u, s')).
  { intros s' Husers Hnow. rewrite get_current_user_returns.
    change "HS256" with ALGORITHM.
    rewrite (jwt_decode_encode _ (utcnow s + 24 * 3600)); [|reflexivity|lia].
    rewrite Husers.
    rewrite (find_by_unique User.username _ u); auto.
    - apply String.eqb_refl.
    - intros r Hr. now apply String.eqb_eq in Hr. }
  eexists. rewrite login_returns.
  rewrite (find_by_unique User.username _ u); auto.
  - split; [reflexivity|]. split; [|exact Hlater].
    apply Hlater; [reflexivity | lia].
  - now apply credentials_match_eqb.
  - intros r Hr. apply credentials_match_eqb in Hr.
    destruct Hr as [Hr _], Hm as [Hu _]. congruence.
Qed.

Lemma get_current_user_lifetime_passed (token : Token) (s : Session) :
  lifetime_passed token s ->
  get_current_user token s = (Raised invalid_or_expired_token, s).
Proof.
  intros (data & s0 & Hcreate & Hage).
  unfold create_access_token, bind, datetime_utcnow, ret in Hcreate.
  simpl in Hcreate. injection Hcreate as <-.
  rewrite get_current_user_returns. unfold jwt_encode.
  unfold timedelta_hours, ACCESS_TOKEN_EXPIRE_HOURS in Hage.
  match goal with
  | |- context [jwt_decode (Jws ?a ?p ?sg) _ _ ?n] =>
      destruct (jwt_decode_expired a sg p (utcnow s0 + 86400) n eq_refl)
        as [err Herr]; [lia | now rewrite Herr]
  end.
Qed.

Lemma get_current_user_signature_fails (token : Token) (s : Session) :
  signature_fails token ->
  get_current_user token s = (Raised invalid_or_expired_token, s).
Proof.
  intros (alg & payload & signature & -> & Hsig).
  rewrite get_current_user_returns. unfold jwt_decode.
  destruct (negb (existsb (String.eqb alg) [ALGORITHM])); [reflexivity|].
  apply String.eqb_neq in Hsig. now rewrite Hsig.
Qed.

Lemma get_current_user_user_is_gone (token : Token) (s : Session) :
  user_is_gone token s ->
  get_current_user token s = (Raised token_user_not_found, s).
Proof.
  intros (username & Hdecode & Hgone).
  rewrite decode_access_token_returns in Hdecode.
  rewrite get_current_user_returns.
  destruct (jwt_decode token SECRET_KEY [ALGORITHM] (utcnow s))
    as [err|[[n|] e]]; try discriminate.
  simpl in Hdecode. injection Hdecode as ->.
  destruct (find _ (rows (users (pending s)))) as [u|] eqn:Hfind;
    [|reflexivity].
  destruct (find_some _ _ Hfind) as [Hin Hn].
  apply String.eqb_eq in Hn. now destruct (Hgone u Hin).
Qed.

(** C6: [get_current_user] refuses, with status 401 and the bearer
    challenge, a token whose default lifetime of 24 hours has passed,
    a token whose signature is not the one the secret gives, and a
    token that decodes to a username no stored user has.  The detail
    is "Invalid or expired token" in the first two cases and "User
    not found" in the third; the session is left as it was. *)
Theorem get_current_user_rejects_token :
  forall (token : Token) (s : Session),
    lifetime_passed token s \/ signature_fails token \/ user_is_gone token s ->
    exists e : HTTPException,
      get_current_user token s = (Raised e, s)
      /\ InvalidOrExpiredToken e
      /\ (e = invalid_or_expired_token \/ e = token_user_not_found).
Proof.
  intros token s [H | [H | H]].
  - exists invalid_or_expired_token.
    rewrite (get_current_user_lifetime_passed _ _ H).
    repeat split. now left.
  - exists invalid_or_expired_token.
    rewrite (get_current_user_signature_fails _ _ H).
    repeat split. now left.
  - exists token_user_not_found.
    rewrite (get_current_user_user_is_gone _ _ H).
    repeat split. now right.
Qed.

(** ** Admin-only routes *)

Lemma Depends_admin_user_forbidden {A : Type} (credentials : Token)
  (endpoint : User.t -> M A) (s : Session) (u : User.t) :
  get_current_user credentials s = (Returned u, s) ->
  User.role u <> "admin" ->
  Depends_admin_user credentials endpoint s
  = (Raised admin_access_required, s).
Proof.
  intros Hu Hrole. unfold Depends_admin_user, bind. rewrite Hu.
  unfold get_admin_user. apply String.eqb_neq in Hrole. now rewrite Hrole.
Qed.

(** C8: when the caller's token resolves to a user whose role is not
    "admin", each admin-only route (create user, delete user, delete
    category, update settings) fails with 403 "Admin access
    required", whatever the payload, and the session, hence the
    store, is left as it was. *)
Theorem admin_routes_forbidden_for_non_admin :
  forall (credentials : Token) (s : Session) (u : User.t),
    get_current_user credentials s = (Returned u, s) ->
    User.role u <> "admin" ->
    (forall user : UserCreate.t,
        api_create_user credentials user s
        = (Raised admin_access_required, s))
    /\ (forall user_id : Z,
          api_delete_user credentials user_id s
          = (Raised admin_access_required, s))
    /\ (forall category_id : Z,
          api_delete_category credentials category_id s
          = (Raised admin_access_required, s))
    /\ (forall settings_update : SettingsUpdate.t,
          api_update_settings credentials settings_update s
          = (Raised admin_access_required, s))
    /\ ForbiddenNotAdmin admin_access_required.
Proof.
  intros credentials s u Hu Hrole.
  repeat split; intros;
    now apply (Depends_admin_user_forbidden _ _ s u).
Qed.

(** ** Marking a to-buy item purchased *)

Lemma find_app_last {R : Type} (p : R -> bool) (l : list R) (x : R) :
  p x = true -> exists r : R, find p (l ++ [x]) = Some r /\ p r = true.
Proof.
  intros Hx. induction l as [|a l IH]; simpl.
  - rewrite Hx. now exists x.
  - destruct (p a) eqn:Ha; [now exists a | exact IH].
Qed.

Lemma find_app_none {R : Type} (p : R -> bool) (l : list R) (x : R) :
  find p l = None -> p x = true -> find p (l ++ [x]) = Some x.
Proof.
  intros Hl Hx. induction l as [|a l IH]; simpl in *.
  - now rewrite Hx.
  - destruct (p a); [discriminate | now apply IH].
Qed.

(** The outcome of [mark_item_purchased] on a stored item, in a fresh
    session whose commits succeed, in terms of the row the endpoint
    builds. *)
Lemma mark_item_purchased_outcome :
  forall (now : Z) (db : Database) (item_id : Z)
         (purchase_info : ToBuyItemPurchase.t) (current_user : User.t)
         (item : ToBuyItem.t),
    find (fun i => ToBuyItem.id i =? item_id) (rows (to_buy_items db))
    = Some item ->
    exists (s' : Session) (category : Category.t),
      mark_item_purchased item_id purchase_info current_user
        (SessionLocal now [] db)
      = (Returned (set_purchase item purchase_info), s')
      /\ find (fun i => ToBuyItem.id i =? item_id)
           (rows (to_buy_items (stored s')))
         = Some (set_purchase item purchase_info)
      /\ rows (to_buy_items (stored s'))
         = purchased_rows item purchase_info (rows (to_buy_items db))
      /\ rows (expenses (stored s'))
         = (rows (expenses db)
            ++ [purchase_expense (next_id (expenses db))
                  (Category.id category) now purchase_info item])%list
      /\ find named_to_buy (rows (categories (stored s'))) = Some category
      /\ match find named_to_buy (rows (categories db)) with
         | Some c => category = c /\ categories (stored s') = categories db
         | None =>
             rows (categories (stored s'))
             = (rows (categories db)
                ++ [to_buy_category (next_id (categories db)) now])%list
         end
      /\ users (stored s') = users db
      /\ settings (stored s') = settings db.
Proof.
  intros now db item_id purchase_info current_user item Hfind.
  assert (Hid : ToBuyItem.id item = item_id).
  { destruct (find_some _ _ Hfind) as [_ H]. now apply Z.eqb_eq. }
  subst item_id.
  unfold mark_item_purchased, bind, db_first, db_update, db_add, db_commit,
    db_refresh, ret, raise, set_pending, SessionLocal. simpl.
  rewrite Hfind. simpl. fold named_to_buy.
  destruct (find named_to_buy (rows (categories db))) as [c|] eqn:Hcat; simpl.
  - rewrite (find_replaced ToBuyItem.id _ item (set_purchase item purchase_info)
               (ToBuyItem.id item) eq_refl Hfind).
    eexists. exists c. split; [reflexivity|]. simpl.
    repeat split; try reflexivity; try assumption.
    now apply (find_replaced ToBuyItem.id _ item).
  - destruct (find_app_last
                (fun r => Category.id r =? next_id (categories db))
                (rows (categories db))
                (to_buy_category (next_id (categories db)) now))
      as (r & Hr & Hidr); [apply Z.eqb_refl|].
    unfold to_buy_category in Hr. rewrite Hr. simpl.
    rewrite (find_replaced ToBuyItem.id _ item (set_purchase item purchase_info)
               (ToBuyItem.id item) eq_refl Hfind).
    apply Z.eqb_eq in Hidr. rewrite Hidr.
    eexists. exists (to_buy_category (next_id (categories db)) now).
    split; [reflexivity|]. simpl.
    repeat split; try reflexivity.
    + now apply (find_replaced ToBuyItem.id _ item).
    + now apply find_app_none.
Qed.

(** C1: marking an existing to-buy item purchased (an unpurchased
    one in particular), in a fresh session whose commits succeed,
    returns and stores, under the item's key, a row [bought] with
    [purchased = true] and with [purchased_by], [purchase_amount],
    [purchase_payment_mode] and [purchase_date] equal to the inputs;
    its other columns are those of the item, and the other items are
    as before.  The stored expenses are the former ones followed by
    exactly one new row, whose amount, payment mode, payer and date
    are the inputs, whose time is "12:00", whose description is
    "Purchase: " followed by the item's name, and whose category is
    the stored category named "To-Buy Items": the existing one, or,
    when there was none, a new one of colour "#6366f1". *)
Theorem mark_item_purchased_creates_expense :
  forall (now : Z) (db : Database) (item_id : Z)
         (purchase_info : ToBuyItemPurchase.t) (current_user : User.t)
         (item : ToBuyItem.t),
    find (fun i => ToBuyItem.id i =? item_id) (rows (to_buy_items db))
    = Some item ->
    exists (s' : Session) (category : Category.t) (bought : ToBuyItem.t),
      mark_item_purchased item_id purchase_info current_user
        (SessionLocal now [] db)
      = (Returned bought, s')
      /\ find (fun i => ToBuyItem.id i =? item_id)
           (rows (to_buy_items (stored s')))
         = Some bought
      /\ ToBuyItem.purchased bought = true
      /\ ToBuyItem.purchased_by bought
         = Some (ToBuyItemPurchase.purchased_by purchase_info)
      /\ ToBuyItem.purchase_amount bought
         = Some (ToBuyItemPurchase.purchase_amount purchase_info)
      /\ ToBuyItem.purchase_payment_mode bought
         = Some (ToBuyItemPurchase.purchase_payment_mode purchase_info)
      /\ ToBuyItem.purchase_date bought
         = Some (ToBuyItemPurchase.purchase_date purchase_info)
      /\ ToBuyItem.id bought = item_id
      /\ ToBuyItem.name bought = ToBuyItem.name item
      /\ ToBuyItem.quantity bought = ToBuyItem.quantity item
      /\ ToBuyItem.target_date bought = ToBuyItem.target_date item
      /\ ToBuyItem.priority bought = ToBuyItem.priority item
      /\ ToBuyItem.notes bought = ToBuyItem.notes item
      /\ ToBuyItem.created_by bought = ToBuyItem.created_by item
      /\ ToBuyItem.created_at bought = ToBuyItem.created_at item
      /\ rows (to_buy_items (stored s'))
         = map (fun i => if ToBuyItem.id i =? item_id then bought else i)
             (rows (to_buy_items db))
      /\ rows (expenses (stored s'))
         = (rows (expenses db)
            ++ [Expense.Build (next_id (expenses db))
                  (ToBuyItemPurchase.purchase_amount purchase_info)
                  (Category.id category)
                  (ToBuyItemPurchase.purchase_payment_mode purchase_info)
                  (ToBuyItemPurchase.purchased_by purchase_info)
                  (ToBuyItemPurchase.purchase_date purchase_info)
                  "12:00"
                  (Some ("Purchase: " ++ ToBuyItem.name item)%string)
                  now])%list
      /\ find named_to_buy (rows (categories (stored s'))) = Some category
      /\ Category.name category = "To-Buy Items"
      /\ match find named_to_buy (rows (categories db)) with
         | Some c => category = c /\ categories (stored s') = categories db
         | None =>
             category
             = Category.Build (next_id (categories db)) "To-Buy Items"
                 "#6366f1" now
             /\ rows (categories (stored s'))
                = (rows (categories db) ++ [category])%list
         end
      /\ users (stored s') = users db
      /\ settings (stored s') = settings db.
Proof.
  intros now db item_id purchase_info current_user item Hfind.
  assert (Hid : ToBuyItem.id item = item_id).
  { destruct (find_some _ _ Hfind) as [_ H]. now apply Z.eqb_eq. }
  destruct (mark_item_purchased_outcome now db item_id purchase_info
              current_user item Hfind)
    as (s' & category & Hrun & Hstored & Hrows & Hexp & Hcat & Hcase & Hu
        & Hs).
  assert (Hname : Category.name category = "To-Buy Items").
  { destruct (find_some _ _ Hcat) as [_ H]. now apply String.eqb_eq. }
  exists s', category, (set_purchase item purchase_info).
  repeat (split; [first [assumption | reflexivity]|]).
  split.
  { rewrite Hrows. unfold purchased_rows. now rewrite Hid. }
  split; [exact Hexp|]. split; [exact Hcat|]. split; [exact Hname|].
  split; [|now split].
  destruct (find named_to_buy (rows (categories db))) as [c|] eqn:Hold;
    [exact Hcase|].
  rewrite Hcase in Hcat.
  rewrite (find_app_none named_to_buy (rows (categories db))
             (to_buy_category (next_id (categories db)) now) Hold eq_refl)
    in Hcat.
  injection Hcat as <-. now split.
Qed.

(** When the category exists the purchase is one transaction: under
    every schedule of commit outcomes the session commits nothing, or
    commits once the state that holds both the marked item and the
    expense. *)
Lemma mark_item_purchased_atomic_with_category :
  forall (now : Z) (fs : list bool) (db : Database) (item_id : Z)
         (purchase_info : ToBuyItemPurchase.t) (current_user : User.t)
         (category : Category.t),
    find named_to_buy (rows (categories db)) = Some category ->
    let s' := snd (mark_item_purchased item_id purchase_info current_user
                     (SessionLocal now fs db)) in
    (stored s' = db /\ commits s' = [])
    \/ (exists item : ToBuyItem.t,
          find (fun i => ToBuyItem.id i =? item_id) (rows (to_buy_items db))
          = Some item
          /\ stored s' = purchase_stored now item purchase_info category db
          /\ commits s' = [stored s']).
Proof.
  intros now fs db item_id purchase_info current_user category Hcat.
  unfold mark_item_purchased, bind, db_first, db_update, db_add, db_commit,
    db_refresh, ret, raise, set_pending, SessionLocal. simpl.
  destruct (find _ (rows (to_buy_items db))) as [item|] eqn:Hfind; simpl;
    [|now left].
  fold named_to_buy. rewrite Hcat. simpl.
  assert (Hid : ToBuyItem.id item = item_id).
  { destruct (find_some _ _ Hfind) as [_ H]. now apply Z.eqb_eq. }
  subst item_id.
  destruct fs as [|[|] fs]; simpl; [|now left|];
    rewrite (find_replaced ToBuyItem.id _ item (set_purchase item purchase_info)
               (ToBuyItem.id item) eq_refl Hfind);
    simpl; right; exists item; repeat split.
Qed.

(** C3, on the path that creates the category: the session commits
    twice, and the first commit stores the item as purchased together
    with the new category while no expense is stored.  When the second
    commit then fails, that is the state the store is left in. *)
Lemma mark_item_purchased_commits_item_before_expense :
  let run_with (fs : list bool) :=
    mark_item_purchased 1 milk_purchase user1 (SessionLocal 100 fs milk_db) in
  (exists first last : Database,
      commits (snd (run_with [])) = [first; last]
      /\ find (fun i => ToBuyItem.id i =? 1) (rows (to_buy_items first))
         = Some (set_purchase milk milk_purchase)
      /\ rows (expenses first) = []
      /\ length (rows (expenses last)) = 1%nat)
  /\ fst (run_with [false; true]) = Unhandled
  /\ find (fun i => ToBuyItem.id i =? 1)
       (rows (to_buy_items (stored (snd (run_with [false; true])))))
     = Some (set_purchase milk milk_purchase)
  /\ rows (expenses (stored (snd (run_with [false; true])))) = [].
Proof.
  split; [|repeat split].
  eexists. eexists. repeat split.
Qed.

(** ** The link between purchased items and expenses *)

Lemma milk_bought_reachable (allowed : Operation -> bool) :
  allowed Startup = true ->
  allowed (CreateToBuyItem milk_item user1) = true ->
  allowed (MarkItemPurchased 1 milk_purchase user1) = true ->
  reachable allowed milk_bought_db.
Proof.
  intros H1 H2 H3. unfold milk_bought_db.
  repeat (apply reach_step; [|assumption]). apply reach_empty.
Qed.

(** C2 as stated fails, in both directions.  After the expense of a
    purchase is deleted the purchased item has no expense row; and
    without any deletion, an item marked purchased twice has two. *)
Lemma one_expense_per_purchase_fails :
  ~ (forall db : Database,
        reachable any_operation db -> purchases_have_one_expense db)
  /\ ~ (forall db : Database,
          reachable not_delete_expense db -> purchases_have_one_expense db).
Proof.
  split; intros H.
  - assert (R : reachable any_operation expense_deleted_db).
    { apply reach_step; [|reflexivity].
      now apply milk_bought_reachable. }
    specialize (H _ R). unfold purchases_have_one_expense in H.
    vm_compute in H.
    destruct (H _ (or_introl eq_refl) eq_refl) as [e [[[] _] _]].
  - assert (R : reachable not_delete_expense milk_bought_twice_db).
    { apply reach_step; [|reflexivity].
      now apply milk_bought_reachable. }
    specialize (H _ R). unfold purchases_have_one_expense in H.
    vm_compute in H.
    destruct (H _ (or_introl eq_refl) eq_refl) as [e [_ Huniq]].
    assert (E1 := Huniq _ (or_introl eq_refl)).
    assert (E2 := Huniq _ (or_intror (or_introl eq_refl))).
    rewrite <- E1 in E2 by (repeat split). discriminate E2. repeat split.
Qed.

Lemma snd_void {A : Type} (m : M A) (s : Session) :
  snd (void m s) = snd (m s).
Proof.
  unfold void, bind, ret. now destruct (m s) as [[a|e|] s'].
Qed.

Lemma purchases_have_expense_mono (db db' : Database) :
  (forall i : ToBuyItem.t,
      In i (rows (to_buy_items db')) -> ToBuyItem.purchased i = true ->
      In i (rows (to_buy_items db))) ->
  incl (rows (expenses db)) (rows (expenses db')) ->
  purchases_have_expense db -> purchases_have_expense db'.
Proof.
  intros Hitems Hexp Hinv i Hi Hp.
  destruct (Hinv i (Hitems i Hi Hp) Hp) as [e [He Hc]].
  exists e. split; [now apply Hexp | exact Hc].
Qed.

(** *** Programs that preserve a property of sessions *)

Lemma preserves_bind {A B : Type} (J : Session -> Prop) (m : M A)
  (k : A -> M B) :
  preserves J m -> (forall a : A, preserves J (k a)) ->
  preserves J (bind m k).
Proof.
  intros Hm Hk s Hs. unfold bind. specialize (Hm s Hs).
  destruct (m s) as [[a|e|] s']; simpl in *; auto. now apply Hk.
Qed.

Lemma preserves_unchanged {A : Type} (J : Session -> Prop) (m : M A) :
  (forall s : Session, snd (m s) = s) -> preserves J m.
Proof. intros H s Hs. now rewrite H. Qed.

Lemma preserves_ret {A : Type} (J : Session -> Prop) (a : A) :
  preserves J (ret a).
Proof. now apply preserves_unchanged. Qed.

Lemma preserves_raise {A : Type} (J : Session -> Prop) (e : HTTPException) :
  preserves J (@raise A e).
Proof. now apply preserves_unchanged. Qed.

Lemma preserves_db_first {R : Type} (J : Session -> Prop) (X : Model R)
  (p : R -> bool) : preserves J (db_first X p).
Proof. now apply preserves_unchanged. Qed.

Lemma preserves_db_all {R : Type} (J : Session -> Prop) (X : Model R)
  (p : R -> bool) : preserves J (db_all X p).
Proof. now apply preserves_unchanged. Qed.

Lemma preserves_db_count {R : Type} (J : Session -> Prop) (X : Model R) :
  preserves J (db_count X).
Proof. now apply preserves_unchanged. Qed.

Lemma preserves_datetime_utcnow (J : Session -> Prop) :
  preserves J datetime_utcnow.
Proof. now apply preserves_unchanged. Qed.

Lemma preserves_db_refresh {R : Type} (J : Session -> Prop) (X : Model R)
  (row : R) : preserves J (db_refresh X row).
Proof.
  apply preserves_unchanged. intros s. unfold db_refresh.
  now destruct (find _ (rows (table X (pending s)))).
Qed.

(** *** The session operations and the link *)

Lemma linked_db_commit : preserves linked db_commit.
Proof.
  intros s [Hs Hp]. unfold db_commit.
  destruct (flush_error s), (faults s) as [|[|] fs]; simpl; now split.
Qed.

Lemma linked_db_add_off {R : Type} (X : Model R) (mk : Z -> Z -> R) :
  off_link X -> preserves linked (db_add X mk).
Proof.
  intros Hoff s [Hs Hp]. split; [exact Hs|]. simpl.
  match goal with
  | |- purchases_have_expense (with_table X ?t ?db) =>
      destruct (Hoff t db) as [Hi He]
  end.
  apply (purchases_have_expense_mono (pending s)); [| |exact Hp].
  - rewrite Hi. auto.
  - rewrite He. apply incl_refl.
Qed.

Lemma linked_db_update_off {R : Type} (X : Model R) (row : R) :
  off_link X -> preserves linked (db_update X row).
Proof.
  intros Hoff s [Hs Hp]. split; [exact Hs|]. simpl.
  match goal with
  | |- purchases_have_expense (with_table X ?t ?db) =>
      destruct (Hoff t db) as [Hi He]
  end.
  apply (purchases_have_expense_mono (pending s)); [| |exact Hp].
  - rewrite Hi. auto.
  - rewrite He. apply incl_refl.
Qed.

Lemma linked_db_add_expense (mk : Z -> Z -> Expense.t) :
  preserves linked (db_add ExpenseT mk).
Proof.
  intros s [Hs Hp]. split; [exact Hs|]. simpl.
  apply (purchases_have_expense_mono (pending s)); [| |exact Hp]; simpl.
  - auto.
  - apply incl_appl, incl_refl.
Qed.

Lemma linked_db_add_item (mk : Z -> Z -> ToBuyItem.t) :
  (forall id now : Z, ToBuyItem.purchased (mk id now) = false) ->
  preserves linked (db_add ToBuyItemT mk).
Proof.
  intros Hmk s [Hs Hp]. split; [exact Hs|]. simpl.
  apply (purchases_have_expense_mono (pending s)); [| |exact Hp]; simpl.
  - intros i Hi Hpur. apply in_app_or in Hi. destruct Hi as [Hi|[<-|[]]].
    + exact Hi.
    + rewrite Hmk in Hpur. discriminate.
  - apply incl_refl.
Qed.

Lemma linked_db_delete_item (row : ToBuyItem.t) :
  preserves linked (db_delete ToBuyItemT row).
Proof.
  intros s [Hs Hp]. split; [exact Hs|]. simpl.
  apply (purchases_have_expense_mono (pending s)); [| |exact Hp]; simpl.
  - intros i Hi _. now apply filter_In in Hi.
  - apply incl_refl.
Qed.

Lemma linked_db_delete_category (row : Category.t) :
  preserves linked (db_delete CategoryT row).
Proof.
  intros s [Hs Hp]. unfold db_delete. simpl. unfold orphan_category.
  destruct (existsb _ (rows (expenses (pending s)))); now split.
Qed.

(** Deleting a user clears [purchased_by] only on items that are not
    purchased: a purchased item of that user has an expense paid by
    the user, and then the delete cannot be flushed. *)
Lemma linked_db_delete_user (row : User.t) :
  preserves linked (db_delete UserT row).
Proof.
  intros s [Hs Hp]. unfold db_delete. simpl. unfold orphan_user.
  destruct (existsb (fun e => Expense.paid_by e =? User.id row)
              (rows (expenses (pending s)))) eqn:Hpaid; simpl;
    [now split|].
  destruct (existsb _ (rows (to_buy_items (pending s)))); simpl;
    [now split|].
  split; [exact Hs|].
  apply (purchases_have_expense_mono (pending s)); [| |exact Hp]; simpl.
  - intros i' Hi' Hpur. apply in_map_iff in Hi'.
    destruct Hi' as [i [<- Hi]].
    unfold nullify_purchased_by in *.
    destruct (ToBuyItem.purchased_by i) as [p|] eqn:Hby; [|exact Hi].
    destruct (p =? User.id row) eqn:Hp'; [|exact Hi].
    simpl in Hpur. destruct (Hp i Hi Hpur) as [e [He Hc]].
    destruct Hc as [Hpayer _]. rewrite Hby in Hpayer.
    injection Hpayer as ->.
    assert (existsb (fun e => Expense.paid_by e =? User.id row)
              (rows (expenses (pending s))) = true)
      by (apply existsb_exists; now exists e).
    congruence.
  - apply incl_refl.
Qed.

Lemma off_link_user : off_link UserT.
Proof. now split. Qed.

Lemma off_link_category : off_link CategoryT.
Proof. now split. Qed.

Lemma off_link_settings : off_link SettingsT.
Proof. now split. Qed.

Create HintDb linked.

#[local] Hint Resolve preserves_ret preserves_raise preserves_db_first
  preserves_db_all preserves_db_count preserves_datetime_utcnow
  preserves_db_refresh linked_db_commit linked_db_add_off
  linked_db_update_off linked_db_add_expense linked_db_add_item
  linked_db_delete_item linked_db_delete_category linked_db_delete_user
  off_link_user off_link_category off_link_settings : linked.

Ltac preserve :=
  repeat first
    [ apply preserves_bind
    | match goal with
      | |- forall _, _ => intro
      | |- preserves _ (match ?x with _ => _ end) => destruct x
      end
    | progress auto with linked ].

Lemma linked_startup_event : preserves linked startup_event.
Proof. unfold startup_event. preserve. Qed.

Lemma linked_create_user (user : UserCreate.t) (admin : User.t) :
  preserves linked (create_user user admin).
Proof. unfold create_user. preserve. Qed.

Lemma linked_delete_user (user_id : Z) (admin : User.t) :
  preserves linked (delete_user user_id admin).
Proof. unfold delete_user. preserve. Qed.

Lemma linked_create_category (category : CategoryCreate.t) (u : User.t) :
  preserves linked (create_category category u).
Proof. unfold create_category. preserve. Qed.

Lemma linked_delete_category (category_id : Z) (admin : User.t) :
  preserves linked (delete_category category_id admin).
Proof. unfold delete_category. preserve. Qed.

Lemma linked_create_expense (expense : ExpenseCreate.t) (u : User.t) :
  preserves linked (create_expense expense u).
Proof. unfold create_expense. preserve. Qed.

Lemma linked_create_to_buy_item (item : ToBuyItemCreate.t) (u : User.t) :
  preserves linked (create_to_buy_item item u).
Proof. unfold create_to_buy_item. preserve. Qed.

Lemma linked_delete_to_buy_item (item_id : Z) (u : User.t) :
  preserves linked (delete_to_buy_item item_id u).
Proof. unfold delete_to_buy_item. preserve. Qed.

Lemma linked_update_settings (settings_update : SettingsUpdate.t)
  (admin : User.t) : preserves linked (update_settings settings_update admin).
Proof. unfold update_settings, upsert_setting. preserve. Qed.

(** The committed database after [mark_item_purchased], in a fresh
    session whose commits succeed. *)
Lemma mark_item_purchased_stored (now : Z) (db : Database) (item_id : Z)
  (purchase_info : ToBuyItemPurchase.t) (current_user : User.t) :
  stored (snd (mark_item_purchased item_id purchase_info current_user
                 (SessionLocal now [] db)))
  = match
      find (fun i => ToBuyItem.id i =? item_id) (rows (to_buy_items db))
    with
    | None => db
    | Some item =>
        match find named_to_buy (rows (categories db)) with
        | Some category => purchase_stored now item purchase_info category db
        | None =>
            let category := to_buy_category (next_id (categories db)) now in
            purchase_stored now item purchase_info category
              (inserted CategoryT category db)
        end
    end.
Proof.
  unfold mark_item_purchased, bind, db_first, db_update, db_add, db_commit,
    db_refresh, ret, raise, set_pending, SessionLocal. simpl.
  destruct (find _ (rows (to_buy_items db))) as [item|] eqn:Hfind; simpl;
    [|reflexivity].
  assert (Hid : ToBuyItem.id item = item_id).
  { destruct (find_some _ _ Hfind) as [_ H]. now apply Z.eqb_eq. }
  subst item_id. fold named_to_buy.
  destruct (find named_to_buy (rows (categories db))) as [c|] eqn:Hcat; simpl.
  - now rewrite (find_replaced ToBuyItem.id _ item
                   (set_purchase item purchase_info) (ToBuyItem.id item)
                   eq_refl Hfind).
  - destruct (find_app_last
                (fun r => Category.id r =? next_id (categories db))
                (rows (categories db))
                (to_buy_category (next_id (categories db)) now))
      as (r & Hr & Hidr); [apply Z.eqb_refl|].
    unfold to_buy_category in Hr. rewrite Hr. simpl.
    rewrite (find_replaced ToBuyItem.id _ item (set_purchase item purchase_info)
               (ToBuyItem.id item) eq_refl Hfind).
    apply Z.eqb_eq in Hidr. now rewrite Hidr.
Qed.

Lemma purchase_stored_linked (now : Z) (item : ToBuyItem.t)
  (purchase_info : ToBuyItemPurchase.t) (category : Category.t)
  (db : Database) :
  purchases_have_expense db ->
  purchases_have_expense (purchase_stored now item purchase_info category db).
Proof.
  intros Hinv i Hi Hpur. simpl in Hi. unfold purchased_rows in Hi.
  apply in_map_iff in Hi. destruct Hi as [i0 [Hi0 Hin]].
  destruct (ToBuyItem.id i0 =? ToBuyItem.id item).
  - subst i. eexists. split.
    + simpl. apply in_or_app. right. left. reflexivity.
    + repeat split.
  - subst i0. destruct (Hinv i Hin Hpur) as [e [He Hc]].
    exists e. split; [|exact Hc]. simpl. apply in_or_app. now left.
Qed.

Lemma purchases_have_expense_preserved (now : Z) (op : Operation)
  (db : Database) :
  not_delete_expense op = true ->
  purchases_have_expense db ->
  purchases_have_expense (apply_op now op db).
Proof.
  intros Hop Hinv. unfold apply_op.
  assert (Hstart : linked (SessionLocal now [] db)) by now split.
  destruct op; simpl run; rewrite ?snd_void; try discriminate;
    try exact Hinv;
    try (match goal with
         | |- purchases_have_expense (stored (snd (?m _))) =>
             assert (Hm : preserves linked m)
               by auto using linked_startup_event, linked_create_user,
                    linked_delete_user, linked_create_category,
                    linked_delete_category, linked_create_expense,
                    linked_create_to_buy_item, linked_delete_to_buy_item,
                    linked_update_settings;
             exact (proj1 (Hm _ Hstart))
         end).
  rewrite mark_item_purchased_stored.
  destruct (find _ (rows (to_buy_items db))); [|exact Hinv].
  destruct (find named_to_buy (rows (categories db)));
    now apply purchase_stored_linked.
Qed.

(** C2, as amended: in every database reachable from the empty one by
    the store's operations other than [delete_expense], each run in a
    fresh session whose commits succeed, every purchased to-buy item
    has at least one expense row carrying its purchase: its payer,
    amount, payment mode and date, the time "12:00" and the
    description "Purchase: " followed by the item's name. *)
Theorem purchased_items_keep_an_expense :
  forall db : Database,
    reachable not_delete_expense db -> purchases_have_expense db.
Proof.
  induction 1 as [|db now op _ IH Hop].
  - intros i [].
  - now apply purchases_have_expense_preserved.
Qed.

(** ** The schema constraints hold in every reachable database *)

Lemma keeps_db_commit {T : Type} (f : Database -> T) (P : T -> Prop) :
  preserves (keeps f P) db_commit.
Proof.
  intros s [Hs Hp]. unfold db_commit.
  destruct (flush_error s), (faults s) as [|[|] fs]; simpl; now split.
Qed.

Lemma keeps_db_add {T R : Type} (f : Database -> T) (P : T -> Prop)
  (X : Model R) (mk : Z -> Z -> R) :
  apart f X -> preserves (keeps f P) (db_add X mk).
Proof.
  intros [Hw _] s [Hs Hp]. split; [exact Hs|]. simpl. now rewrite Hw.
Qed.

Lemma keeps_db_update {T R : Type} (f : Database -> T) (P : T -> Prop)
  (X : Model R) (row : R) :
  apart f X -> preserves (keeps f P) (db_update X row).
Proof.
  intros [Hw _] s [Hs Hp]. split; [exact Hs|]. simpl. now rewrite Hw.
Qed.

Lemma keeps_db_delete {T R : Type} (f : Database -> T) (P : T -> Prop)
  (X : Model R) (row : R) :
  apart f X -> preserves (keeps f P) (db_delete X row).
Proof.
  intros [Hw Ho] s [Hs Hp]. unfold db_delete.
  destruct (orphan X (pk X row) (pending s)) as [db'|] eqn:E; simpl.
  - split; [exact Hs|]. simpl. rewrite Hw. now rewrite (Ho _ _ _ E).
  - now split.
Qed.

Lemma bind_snd_preserved {A B : Type} (J : Session -> Prop) (m : M A)
  (k : A -> M B) (s : Session) :
  J (snd (m s)) -> (forall a : A, preserves J (k a)) ->
  J (snd (bind m k s)).
Proof.
  intros Hm Hk. unfold bind.
  destruct (m s) as [[a|e|] s']; simpl in *; auto. now apply Hk.
Qed.

Ltac solve_apart :=
  split; [reflexivity|];
  intros k db db'; simpl; unfold orphan_user, orphan_category;
  repeat match goal with
         | |- context [existsb ?p ?l] => destruct (existsb p l); simpl
         end;
  intros E; try discriminate; now injection E as <-.

Lemma apart_users_category : apart users CategoryT.
Proof. solve_apart. Qed.

Lemma apart_users_expense : apart users ExpenseT.
Proof. solve_apart. Qed.

Lemma apart_users_item : apart users ToBuyItemT.
Proof. solve_apart. Qed.

Lemma apart_users_settings : apart users SettingsT.
Proof. solve_apart. Qed.

Lemma apart_expenses_user : apart expenses UserT.
Proof. solve_apart. Qed.

Lemma apart_expenses_category : apart expenses CategoryT.
Proof. solve_apart. Qed.

Lemma apart_expenses_item : apart expenses ToBuyItemT.
Proof. solve_apart. Qed.

Lemma apart_expenses_settings : apart expenses SettingsT.
Proof. solve_apart. Qed.

#[local] Hint Resolve keeps_db_commit keeps_db_add keeps_db_update
  keeps_db_delete apart_users_category apart_users_expense apart_users_item
  apart_users_settings apart_expenses_user apart_expenses_category
  apart_expenses_item apart_expenses_settings : linked.

(** The operations that leave the users table alone, and those that
    leave the expenses table alone. *)
Lemma users_kept (now : Z) (op : Operation) (db : Database) :
  match op with
  | Startup | CreateUser _ _ | DeleteUser _ _ => False
  | _ => True
  end ->
  users (apply_op now op db) = users db.
Proof.
  intros Hop. unfold apply_op.
  assert (Hstart : keeps users (eq (users db)) (SessionLocal now [] db))
    by now split.
  destruct op; try contradiction; simpl run; rewrite ?snd_void;
    try reflexivity;
    match goal with
    | |- users (stored (snd (?m _))) = _ =>
        assert (Hm : preserves (keeps users (eq (users db))) m);
        [|symmetry; exact (proj1 (Hm _ Hstart))]
    end.
  - unfold create_category. preserve.
  - unfold delete_category. preserve.
  - unfold create_expense. preserve.
  - unfold delete_expense. preserve.
  - unfold create_to_buy_item. preserve.
  - unfold mark_item_purchased. preserve.
  - unfold delete_to_buy_item. preserve.
  - unfold update_settings, upsert_setting. preserve.
Qed.

Lemma expenses_kept (now : Z) (op : Operation) (db : Database) :
  match op with
  | CreateExpense _ _ | DeleteExpense _ _ | MarkItemPurchased _ _ _ => False
  | _ => True
  end ->
  expenses (apply_op now op db) = expenses db.
Proof.
  intros Hop. unfold apply_op.
  assert (Hstart : keeps expenses (eq (expenses db)) (SessionLocal now [] db))
    by now split.
  destruct op; try contradiction; simpl run; rewrite ?snd_void;
    try reflexivity;
    match goal with
    | |- expenses (stored (snd (?m _))) = _ =>
        assert (Hm : preserves (keeps expenses (eq (expenses db))) m);
        [|symmetry; exact (proj1 (Hm _ Hstart))]
    end.
  - unfold startup_event. preserve.
  - unfold create_user. preserve.
  - unfold delete_user. preserve.
  - unfold create_category. preserve.
  - unfold delete_category. preserve.
  - unfold create_to_buy_item. preserve.
  - unfold delete_to_buy_item. preserve.
  - unfold update_settings, upsert_setting. preserve.
Qed.

Lemma usernames_unique_after_delete (keep : User.t -> bool)
  (l : list User.t) :
  NoDup (map User.username l) ->
  NoDup (map User.username (filter keep l)).
Proof using.
  clear SECRET_KEY hs256.
  intros Hnd. induction l as [|u l IH]; simpl in *; [exact Hnd|].
  apply NoDup_cons_iff in Hnd. destruct Hnd as [Hnew Hnd].
  destruct (keep u); simpl; [|now apply IH].
  apply NoDup_cons; [|now apply IH].
  rewrite in_map_iff. intros (u' & Hname & Hin).
  apply filter_In in Hin. apply Hnew. rewrite in_map_iff.
  exists u'. tauto.
Qed.

Lemma NoDup_map_app_new {A : Type} (f : A -> string) (l : list A) (x : A) :
  NoDup (map f l) ->
  find (fun a => (f a =? f x)%string) l = None ->
  NoDup (map f (l ++ [x])).
Proof.
  intros Hnd Hfind. rewrite map_app. simpl.
  apply (Permutation_NoDup (Permutation_cons_append (map f l) (f x))).
  constructor; [|exact Hnd].
  intros Hin. apply in_map_iff in Hin. destruct Hin as [a [Ha Hin]].
  pose proof (find_none _ _ Hfind a Hin) as Hne. simpl in Hne.
  rewrite Ha, String.eqb_refl in Hne. discriminate.
Qed.

Ltac run_endpoint :=
  unfold bind, db_first, db_all, db_count, db_add, db_update, db_delete,
    db_commit, db_refresh, ret, raise, set_pending, SessionLocal,
    datetime_utcnow; simpl.

Lemma startup_event_usernames :
  preserves (keeps users (fun t => NoDup (map User.username (rows t))))
    startup_event.
Proof using.
  clear SECRET_KEY hs256.
  intros s [Hs Hp]. unfold startup_event.
  unfold bind at 1. unfold db_count at 1. simpl.
  apply bind_snd_preserved; [|preserve].
  destruct (Z.of_nat (length (rows (users (pending s)))) =? 0) eqn:Hn;
    [|now split].
  destruct (rows (users (pending s))) as [|u0 l] eqn:Hrows;
    [|discriminate].
  run_endpoint. rewrite Hrows.
  destruct (flush_error s), (faults s) as [|[|] fs]; simpl; split; simpl;
    try exact Hs;
    repeat constructor; simpl; intuition discriminate.
Qed.

Lemma unique_usernames_preserved (now : Z) (op : Operation) (db : Database) :
  unique_usernames db -> unique_usernames (apply_op now op db).
Proof using.
  clear SECRET_KEY hs256.
  intros Hu. unfold unique_usernames in *.
  assert (Hu' := conj Hu Hu).
  destruct op; try (rewrite users_kept; [exact Hu | exact I]);
    unfold apply_op; simpl run; rewrite ?snd_void.
  - change (keeps users (fun t => NoDup (map User.username (rows t)))
              (SessionLocal now [] db)) in Hu'.
    apply (proj1 (startup_event_usernames _ Hu')).
  - unfold create_user. run_endpoint.
    destruct (find _ (rows (users db))) as [u0|] eqn:Hfind; simpl;
      [exact Hu|].
    match goal with
    | |- context [find ?p ?l] => destruct (find p l)
    end; simpl; now apply NoDup_map_app_new.
  - unfold delete_user. run_endpoint.
    destruct (find _ (rows (users db))) as [u0|]; simpl; [|exact Hu].
    unfold orphan_user.
    repeat match goal with
           | |- context [existsb ?p ?l] => destruct (existsb p l); simpl
           end; try exact Hu.
    now apply usernames_unique_after_delete.
Qed.

Lemma keys_below_app (l : list Expense.t) (row : Expense.t) (n : Z) :
  Forall (fun e => Expense.id e < n) l -> Expense.id row = n ->
  Forall (fun e => Expense.id e < n + 1) (l ++ [row]).
Proof.
  intros Hl Hrow. apply Forall_app. split.
  - eapply Forall_impl; [|exact Hl]. simpl. intros e He. lia.
  - constructor; [lia | constructor].
Qed.

Lemma expense_keys_preserved (now : Z) (op : Operation) (db : Database) :
  keys_below ExpenseT db -> keys_below ExpenseT (apply_op now op db).
Proof.
  intros Hk. unfold keys_below in *. simpl in *.
  destruct op; try (rewrite expenses_kept; [exact Hk | exact I]);
    unfold apply_op; simpl run; rewrite ?snd_void.
  - unfold create_expense. run_endpoint.
    match goal with
    | |- context [find ?p ?l] => destruct (find p l)
    end; simpl; now apply keys_below_app.
  - unfold delete_expense. run_endpoint.
    destruct (find _ (rows (expenses db))) as [e0|]; simpl; [|exact Hk].
    apply Forall_forall. intros e He. apply filter_In in He.
    now apply (proj1 (Forall_forall _ _) Hk).
  - rewrite mark_item_purchased_stored.
    destruct (find _ (rows (to_buy_items db))); [|exact Hk].
    destruct (find named_to_buy (rows (categories db))); simpl;
      now apply keys_below_app.
Qed.

(** Every database the operations reach satisfies the constraints the
    statements on [login] and on [create_expense] assume. *)
Lemma reachable_schema_ok (allowed : Operation -> bool) (db : Database) :
  reachable allowed db -> schema_ok db.
Proof using.
  clear SECRET_KEY hs256.
  induction 1 as [|db now op _ [Hu Hk] _].
  - split; [constructor | constructor].
  - split; [now apply unique_usernames_preserved
           | now apply expense_keys_preserved].
Qed.

(** * Further properties of the endpoints *)

(** ** Rows that are not there *)

(** X1: marking an item that is not stored fails with 404 "Item not
    found" on every session, and the session stays as it was: no
    category and no expense are created and nothing is committed. *)
Theorem mark_item_purchased_not_found :
  forall (item_id : Z) (purchase_info : ToBuyItemPurchase.t)
         (current_user : User.t) (s : Session),
    absent ToBuyItemT item_id s ->
    mark_item_purchased item_id purchase_info current_user s
    = (Raised (not_found "Item"), s).
Proof.
  intros item_id purchase_info current_user s Habsent.
  unfold absent in Habsent. simpl in Habsent.
  unfold mark_item_purchased, bind, db_first. simpl.
  now rewrite Habsent.
Qed.

(** X2: each delete endpoint answers 404, with the name of its entity,
    for a key no row has, and leaves the session as it was. *)
Theorem delete_not_found :
  forall (k : Z) (current_user : User.t) (s : Session),
    (absent UserT k s ->
     delete_user k current_user s = (Raised (not_found "User"), s))
    /\ (absent CategoryT k s ->
        delete_category k current_user s = (Raised (not_found "Category"), s))
    /\ (absent ExpenseT k s ->
        delete_expense k current_user s = (Raised (not_found "Expense"), s))
    /\ (absent ToBuyItemT k s ->
        delete_to_buy_item k current_user s = (Raised (not_found "Item"), s)).
Proof.
  intros k current_user s. unfold absent. simpl.
  repeat split; intros Habsent;
    [ unfold delete_user | unfold delete_category | unfold delete_expense
    | unfold delete_to_buy_item ];
    unfold bind, db_first; simpl; now rewrite Habsent.
Qed.

(** ** Creating categories and users *)

Lemma find_none_of {R : Type} (p : R -> bool) (l : list R) :
  (forall r : R, In r l -> p r = false) -> find p l = None.
Proof.
  induction l as [|a l IH]; simpl; [reflexivity|]. intros H.
  rewrite (H a) by now left. apply IH. intros r Hr. apply H. now right.
Qed.

(** X3: creating a category whose name is already stored fails with
    400 "Category already exists" and writes nothing.  With a new
    name, in a fresh session whose commit succeeds, the category gets
    the next key of the table, is returned, and is from then on the
    last row that [get_categories] lists. *)
Theorem create_category_duplicate_or_listed :
  forall (now : Z) (db : Database) (category : CategoryCreate.t)
         (current_user : User.t),
    keys_below CategoryT db ->
    match
      find (fun c => (Category.name c =? CategoryCreate.name category)%string)
        (rows (categories db))
    with
    | Some _ =>
        create_category category current_user (SessionLocal now [] db)
        = (Raised (MkHTTPException 400 "Category already exists" []),
           SessionLocal now [] db)
    | None =>
        let row := category_of category (next_id (categories db)) now in
        let db' := inserted CategoryT row db in
        create_category category current_user (SessionLocal now [] db)
        = (Returned row, committed_once now db')
        /\ (forall (later : Z) (reader : User.t),
              get_categories reader (SessionLocal later [] db')
              = (Returned (rows (categories db) ++ [row])%list,
                 SessionLocal later [] db'))
    end.
Proof.
  intros now db category current_user Hkeys.
  unfold create_category, bind, db_first. simpl.
  destruct (find _ (rows (categories db))) as [c|]; simpl; [reflexivity|].
  split.
  - unfold db_add, db_commit, db_refresh, ret. simpl.
    fold (category_of category (next_id (categories db)) now).
    rewrite (find_app_new Category.id (rows (categories db))
               (category_of category (next_id (categories db)) now));
      [reflexivity | reflexivity | exact Hkeys].
  - intros later reader. unfold get_categories, db_all. simpl.
    now rewrite filter_query_all.
Qed.

(** X4: creating a user whose username is already stored fails with
    400 "Username already exists" and writes nothing.  With a new
    username, in a fresh session whose commit succeeds, the user is
    stored with the submitted password as it is, and a later [login]
    with that username and password succeeds and returns that very
    row. *)
Theorem create_user_then_login :
  forall (now later : Z) (db : Database) (user : UserCreate.t)
         (admin : User.t),
    keys_below UserT db ->
    match
      find (fun u => (User.username u =? UserCreate.username user)%string)
        (rows (users db))
    with
    | Some _ =>
        create_user user admin (SessionLocal now [] db)
        = (Raised (MkHTTPException 400 "Username already exists" []),
           SessionLocal now [] db)
    | None =>
        let row := user_of user (next_id (users db)) now in
        let db' := inserted UserT row db in
        create_user user admin (SessionLocal now [] db)
        = (Returned row, committed_once now db')
        /\ (exists token : Token,
              login
                (UserLogin.Build (UserCreate.username user)
                   (UserCreate.password user))
                (SessionLocal later [] db')
              = (Returned (MkTokenResponse token "bearer" row),
                 SessionLocal later [] db'))
    end.
Proof.
  intros now later db user admin Hkeys.
  unfold create_user, bind, db_first. simpl.
  destruct (find _ (rows (users db))) as [u|] eqn:Hfind; simpl;
    [reflexivity|].
  split.
  - unfold db_add, db_commit, db_refresh, ret. simpl.
    fold (user_of user (next_id (users db)) now).
    rewrite (find_app_new User.id (rows (users db))
               (user_of user (next_id (users db)) now));
      [reflexivity | reflexivity | exact Hkeys].
  - eexists. rewrite login_returns. simpl.
    rewrite find_app_none; [reflexivity | |].
    + apply find_none_of. intros r Hr.
      pose proof (find_none _ _ Hfind r Hr) as Hne. simpl in Hne.
      now rewrite Hne.
    + simpl. now rewrite !String.eqb_refl.
Qed.

(** ** Expenses: insert, then delete *)



(** ** Tokens *)

(** X6: what [decode_access_token] makes of a token that
    [create_access_token] issued.  The lifetime is [expires_delta]
    when that is given and not zero, and 24 hours when it is omitted
    or zero; while the lifetime has not passed the token decodes to
    the [sub] it was issued for, afterwards (and at once, for a
    negative [expires_delta]) to nothing. *)
Theorem decode_created_access_token :
  forall (data : Payload) (expires_delta : option Z) (s0 s : Session),
    exists (token : Token) (lifetime : Z),
      create_access_token data expires_delta s0 = (Returned token, s0)
      /\ lifetime = match expires_delta with
                    | None | Some 0 => 24 * 3600
                    | Some d => d
                    end
      /\ decode_access_token token s
         = (Returned (if utcnow s0 + lifetime <=? utcnow s then None
                      else sub data), s).
Proof.
  intros data expires_delta s0 s.
  eexists. eexists. split; [reflexivity|]. split; [reflexivity|].
  rewrite decode_access_token_returns. unfold jwt_decode, jwt_encode. simpl.
  rewrite String.eqb_refl. simpl.
  destruct expires_delta as [[|d|d]|]; simpl;
    match goal with
    | |- context [?a <=? ?b] => now destruct (a <=? b)
    end.
Qed.

(** X7: a token names its user by username only.  A token that
    [login] issued resolves, until its 24 hours have passed, to the
    row that holds that username at the time of the request, whatever
    the key, password and role of that row. *)
Theorem token_resolves_to_current_record :
  forall (user_login : UserLogin.t) (s0 : Session) (r : TokenResponse)
         (s : Session) (u : User.t),
    login user_login s0 = (Returned r, s0) ->
    utcnow s < utcnow s0 + 24 * 3600 ->
    unique_usernames (pending s) ->
    In u (rows (users (pending s))) ->
    User.username u = UserLogin.username user_login ->
    get_current_user (access_token r) s = (Returned u, s).
Proof.
  intros user_login s0 r s u Hlogin Hnow Huniq Hin Hname.
  rewrite login_returns in Hlogin.
  destruct (find _ (rows (users (pending s0)))) as [u0|] eqn:Hfind;
    [|discriminate].
  injection Hlogin as <-. simpl.
  destruct (find_some _ _ Hfind) as [_ Hm].
  apply credentials_match_eqb in Hm. destruct Hm as [Hn0 _].
  rewrite get_current_user_returns. change "HS256" with ALGORITHM.
  rewrite (jwt_decode_encode _ (utcnow s0 + 24 * 3600)); [|reflexivity|lia].
  rewrite (find_by_unique User.username _ u); auto.
  - apply String.eqb_eq. congruence.
  - intros r Hr. apply String.eqb_eq in Hr. congruence.
Qed.

(** ** Listing the items to buy *)

Lemma target_date_asc_sorted (l : list ToBuyItem.t) :
  StronglySorted earliest_first (order_by target_date_asc l).
Proof.
  apply (order_by_sorted target_date_asc).
  - intros a b. apply String.leb_total.
  - intros a b c. apply string_leb_trans.
Qed.

(** X8: [get_to_buy_items] returns the stored items, each once, in
    ascending order of target date.  The [purchased] flag filters by
    presence, not by truthiness: [purchased=false] selects the items
    that are not purchased, and only an omitted flag selects all. *)
Theorem get_to_buy_items_sorted :
  forall (purchased : option bool) (current_user : User.t) (s : Session),
    exists l : list ToBuyItem.t,
      get_to_buy_items purchased current_user s = (Returned l, s)
      /\ StronglySorted earliest_first l
      /\ Permutation l
           match purchased with
           | Some flag =>
               filter (fun i => Bool.eqb (ToBuyItem.purchased i) flag)
                 (rows (to_buy_items (pending s)))
           | None => rows (to_buy_items (pending s))
           end.
Proof.
  intros purchased current_user s.
  eexists. split; [reflexivity|]. split; [apply target_date_asc_sorted|].
  rewrite order_by_perm.
  destruct purchased as [flag|]; simpl; [reflexivity|].
  now rewrite filter_query_all.
Qed.

(** ** The startup event *)

Lemma startup_event_stored (now : Z) (db : Database) :
  apply_op now Startup db
  = MkDatabase (seed_users now (users db))
      (seed_categories now (categories db)) (expenses db) (to_buy_items db)
      (seed_settings now (settings db)).
Proof.
  destruct db as [[ur un] [cr cn] e i [sr sn]].
  destruct ur as [|u ur], cr as [|c cr], sr as [|st sr]; reflexivity.
Qed.

Lemma seed_users_twice (now later : Z) (t : Table User.t) :
  seed_users later (seed_users now t) = seed_users now t.
Proof. destruct t as [[|u l] n]; reflexivity. Qed.

Lemma seed_categories_twice (now later : Z) (t : Table Category.t) :
  seed_categories later (seed_categories now t) = seed_categories now t.
Proof. destruct t as [[|c l] n]; reflexivity. Qed.

Lemma seed_settings_twice (now later : Z) (t : Table Settings.t) :
  seed_settings later (seed_settings now t) = seed_settings now t.
Proof. destruct t as [[|x l] n]; reflexivity. Qed.

(** X9: the startup event only fills empty tables.  A table of users,
    categories or settings that holds a row is left exactly as it is,
    an empty one receives the seed rows (three users, five categories,
    two settings), and the expenses and the items to buy are never
    touched; so running the event again changes nothing. *)
Theorem startup_event_seeds_once :
  forall (now later : Z) (db : Database),
    let started := apply_op now Startup db in
    apply_op later Startup started = started
    /\ (rows (users db) <> [] -> users started = users db)
    /\ (rows (categories db) <> [] -> categories started = categories db)
    /\ (rows (settings db) <> [] -> settings started = settings db)
    /\ (rows (users db) = [] ->
        map User.username (rows (users started)) = ["admin"; "user1"; "user2"])
    /\ (rows (categories db) = [] ->
        map Category.name (rows (categories started))
        = ["Groceries"; "Rent"; "Utilities"; "Transportation";
           "Entertainment"])
    /\ (rows (settings db) = [] ->
        map Settings.key (rows (settings started))
        = ["currency_symbol"; "home_name"])
    /\ expenses started = expenses db
    /\ to_buy_items started = to_buy_items db.
Proof.
  intros now later db started. unfold started.
  rewrite !startup_event_stored. simpl.
  rewrite seed_users_twice, seed_categories_twice, seed_settings_twice.
  split; [reflexivity|].
  unfold seed_users, seed_categories, seed_settings.
  destruct (rows (users db)), (rows (categories db)), (rows (settings db));
    repeat split; intros H; try reflexivity; try discriminate;
    now destruct H.
Qed.

(** ** One commit, all or nothing *)

Ltac split_cases fs :=
  repeat (simpl; unfold orphan_user, orphan_category;
          match goal with
          | |- context [find ?p ?l] => destruct (find p l) eqn:?
          | |- context [existsb ?p ?l] => destruct (existsb p l) eqn:?
          | |- context [(?a =? ?b)%string] => destruct (a =? b)%string eqn:?
          | |- context [match fs with _ => _ end] => destruct fs as [|[|] ?]
          end).

Ltac all_or_nothing :=
  first [left; split; reflexivity | right; split; reflexivity].

(** X10: every endpoint other than [mark_item_purchased] commits at
    most once, and its writes stand or fall with that commit.  Under
    every schedule of commit outcomes the request leaves the stored
    database untouched, with nothing committed, or commits once and
    stores exactly what the request stores when its commit succeeds.
    In particular [update_settings] never stores one of its two
    values without the other. *)
Theorem single_commit_all_or_nothing :
  forall (now : Z) (fs : list bool) (db : Database) (op : Operation),
    commits_once op = true ->
    let s' := snd (run op (SessionLocal now fs db)) in
    (stored s' = db /\ commits s' = [])
    \/ (stored s' = apply_op now op db /\ commits s' = [stored s']).
Proof.
  intros now fs db op Hop s'. unfold s', apply_op.
  destruct op; try discriminate; simpl run; rewrite ?snd_void;
    try (now left).
  - unfold create_user. run_endpoint. split_cases fs; all_or_nothing.
  - unfold delete_user. run_endpoint. split_cases fs; all_or_nothing.
  - unfold create_category. run_endpoint. split_cases fs; all_or_nothing.
  - unfold delete_category. run_endpoint. split_cases fs; all_or_nothing.
  - unfold create_expense. run_endpoint. split_cases fs; all_or_nothing.
  - unfold delete_expense. run_endpoint. split_cases fs; all_or_nothing.
  - unfold create_to_buy_item. run_endpoint. split_cases fs; all_or_nothing.
  - unfold delete_to_buy_item. run_endpoint. split_cases fs; all_or_nothing.
  - unfold update_settings, upsert_setting. run_endpoint.
    split_cases fs; all_or_nothing.
Qed.

(** ** Which operation writes which table *)

Ltac solve_apart_fresh :=
  split; [reflexivity|];
  let k := fresh "k" in
  let d := fresh "d" in
  let d' := fresh "d" in
  let E := fresh "E" in
  intros k d d'; simpl; unfold orphan_user, orphan_category;
  repeat match goal with
         | |- context [existsb ?p ?l] => destruct (existsb p l); simpl
         end;
  intros E; try discriminate; now injection E as <-.

#[local] Hint Extern 1 (apart _ _) => solve_apart_fresh : linked.

(** Adding a user leaves the items alone (deleting one does not: it
    clears [purchased_by]). *)
Lemma keeps_items_db_add_user (P : Table ToBuyItem.t -> Prop)
  (mk : Z -> Z -> User.t) :
  preserves (keeps to_buy_items P) (db_add UserT mk).
Proof. intros s [Hs Hp]. now split. Qed.

#[local] Hint Resolve keeps_items_db_add_user : linked.

Ltac kept_by f :=
  match goal with
  | |- f (stored (snd (?m (SessionLocal ?now [] ?db)))) = _ =>
      let Hm := fresh "Hm" in
      assert (Hm : preserves (keeps f (eq (f db))) m);
      [ unfold startup_event, create_user, delete_user, create_category,
          delete_category, create_expense, delete_expense,
          create_to_buy_item, mark_item_purchased, delete_to_buy_item,
          update_settings, upsert_setting, get_users, get_categories,
          get_expenses, get_to_buy_items, get_settings;
        preserve
      | symmetry; apply (Hm (SessionLocal now [] db)); now split ]
  end.

(** X11: the tables an operation may write.  Users change only through
    the startup event, [create_user] and [delete_user]; categories
    only through the startup event, [create_category],
    [delete_category] and [mark_item_purchased]; expenses only through
    [create_expense], [delete_expense] and [mark_item_purchased];
    settings only through the startup event and [update_settings].
    So deleting an item, a category or a user never removes or alters
    an expense, and no listing endpoint writes anything. *)
Theorem tables_written_by :
  forall (now : Z) (op : Operation) (db : Database),
    (writes_users op = false -> users (apply_op now op db) = users db)
    /\ (writes_categories op = false ->
        categories (apply_op now op db) = categories db)
    /\ (writes_expenses op = false ->
        expenses (apply_op now op db) = expenses db)
    /\ (writes_to_buy_items op = false ->
        to_buy_items (apply_op now op db) = to_buy_items db)
    /\ (writes_settings op = false ->
        settings (apply_op now op db) = settings db).
Proof.
  intros now op db. unfold apply_op.
  repeat split; intros Hop; destruct op; try discriminate;
    simpl run; rewrite ?snd_void.
  all: first [ kept_by users | kept_by categories | kept_by expenses
             | kept_by to_buy_items | kept_by settings ].
Qed.

(** ** Creating an item to buy *)

(** X12: [create_to_buy_item] stores the item under the next key with
    [created_by] set to the caller's id, not purchased and with the
    four purchase fields empty, and returns it.  From then on the
    listing of unpurchased items contains it and the listing of
    purchased items does not. *)
Theorem create_to_buy_item_listed_unpurchased :
  forall (now later : Z) (db : Database) (item : ToBuyItemCreate.t)
         (current_user reader : User.t),
    keys_below ToBuyItemT db ->
    let row :=
      item_of item (User.id current_user) (next_id (to_buy_items db)) now in
    let db' := inserted ToBuyItemT row db in
    create_to_buy_item item current_user (SessionLocal now [] db)
    = (Returned row, committed_once now db')
    /\ (exists l : list ToBuyItem.t,
          get_to_buy_items (Some false) reader (SessionLocal later [] db')
          = (Returned l, SessionLocal later [] db')
          /\ In row l)
    /\ (exists l : list ToBuyItem.t,
          get_to_buy_items (Some true) reader (SessionLocal later [] db')
          = (Returned l, SessionLocal later [] db')
          /\ ~ In row l).
Proof.
  intros now later db item current_user reader Hkeys row db'.
  split; [|split].
  - unfold create_to_buy_item, bind, db_add, db_commit, db_refresh, ret.
    simpl. fold (item_of item (User.id current_user)
                   (next_id (to_buy_items db)) now). fold row.
    rewrite (find_app_new ToBuyItem.id (rows (to_buy_items db)) row);
      [reflexivity | reflexivity | exact Hkeys].
  - eexists. split; [reflexivity|].
    apply (Permutation_in _ (Permutation_sym (order_by_perm _ _))).
    apply filter_In. split; [|reflexivity].
    simpl. apply in_or_app. right. now left.
  - eexists. split; [reflexivity|]. intros Hin.
    apply (Permutation_in _ (order_by_perm _ _)) in Hin.
    apply filter_In in Hin. destruct Hin as [_ Hflag]. discriminate.
Qed.

(** ** Routes and their dependencies *)

(** X13: no protected endpoint runs for a token that does not resolve.
    When [get_current_user] raises, every route behind it, the
    admin-only ones included, raises the same exception and returns
    the session untouched. *)
Theorem routes_need_a_resolved_token :
  forall (credentials : Token) (s : Session) (e : HTTPException),
    get_current_user credentials s = (Raised e, s) ->
    api_me credentials s = (Raised e, s)
    /\ api_get_users credentials s = (Raised e, s)
    /\ (forall user, api_create_user credentials user s = (Raised e, s))
    /\ (forall user_id, api_delete_user credentials user_id s = (Raised e, s))
    /\ api_get_categories credentials s = (Raised e, s)
    /\ (forall category,
          api_create_category credentials category s = (Raised e, s))
    /\ (forall category_id,
          api_delete_category credentials category_id s = (Raised e, s))
    /\ (forall category_id paid_by payment_mode start_date end_date,
          api_get_expenses credentials category_id paid_by payment_mode
            start_date end_date s = (Raised e, s))
    /\ (forall expense, api_create_expense credentials expense s = (Raised e, s))
    /\ (forall expense_id,
          api_delete_expense credentials expense_id s = (Raised e, s))
    /\ (forall purchased,
          api_get_to_buy_items credentials purchased s = (Raised e, s))
    /\ (forall item, api_create_to_buy_item credentials item s = (Raised e, s))
    /\ (forall item_id purchase_info,
          api_mark_item_purchased credentials item_id purchase_info s
          = (Raised e, s))
    /\ (forall item_id,
          api_delete_to_buy_item credentials item_id s = (Raised e, s))
    /\ api_get_settings credentials s = (Raised e, s)
    /\ (forall settings_update,
          api_update_settings credentials settings_update s = (Raised e, s)).
Proof.
  intros credentials s e He.
  repeat split; intros;
    unfold api_me, api_get_users, api_create_user, api_delete_user,
      api_get_categories, api_create_category, api_delete_category,
      api_get_expenses, api_create_expense, api_delete_expense,
      api_get_to_buy_items, api_create_to_buy_item, api_mark_item_purchased,
      api_delete_to_buy_item, api_get_settings, api_update_settings,
      Depends_current_user, Depends_admin_user, bind;
    now rewrite He.
Qed.

(** ** The constraints of the schema *)

Lemma table_ok_add {R : Type} (key : R -> Z) (t : Table R) (row : R) :
  table_ok key t -> key row = next_id t ->
  table_ok key (MkTable (rows t ++ [row]) (next_id t + 1)).
Proof.
  intros [Hnd Hlt] Hrow. split; simpl.
  - rewrite map_app. simpl.
    apply (Permutation_NoDup (Permutation_cons_append _ _)).
    constructor; [|exact Hnd].
    rewrite in_map_iff. intros (r & Hr & Hin).
    pose proof (proj1 (Forall_forall _ _) Hlt r Hin) as H. simpl in H. lia.
  - apply Forall_app. split.
    + eapply Forall_impl; [|exact Hlt]. simpl. intros r Hr. lia.
    + constructor; [lia | constructor].
Qed.

Lemma keys_after_update {R : Type} (key : R -> Z) (row : R) (l : list R) :
  map key (map (fun r => if key r =? key row then row else r) l) = map key l.
Proof.
  induction l as [|r l IH]; simpl; [reflexivity|]. rewrite IH.
  destruct (key r =? key row) eqn:E; [|reflexivity].
  apply Z.eqb_eq in E. now rewrite E.
Qed.

Lemma table_ok_update {R : Type} (key : R -> Z) (t : Table R) (row : R) :
  table_ok key t ->
  table_ok key
    (MkTable (map (fun r => if key r =? key row then row else r) (rows t))
       (next_id t)).
Proof.
  intros [Hnd Hlt]. split; simpl.
  - now rewrite keys_after_update.
  - apply Forall_forall. intros r' Hin. apply in_map_iff in Hin.
    destruct Hin as (r & Hr & Hin).
    pose proof (proj1 (Forall_forall _ _) Hlt r Hin) as H. simpl in H.
    destruct (key r =? key row) eqn:E; subst r'; [|exact H].
    apply Z.eqb_eq in E. now rewrite <- E.
Qed.

Lemma keys_distinct_after_filter {R K : Type} (key : R -> K)
  (keep : R -> bool) (l : list R) :
  NoDup (map key l) -> NoDup (map key (filter keep l)).
Proof using.
  clear SECRET_KEY hs256.
  intros Hnd. induction l as [|r l IH]; simpl in *; [exact Hnd|].
  apply NoDup_cons_iff in Hnd. destruct Hnd as [Hnew Hnd].
  destruct (keep r); simpl; [|now apply IH].
  apply NoDup_cons; [|now apply IH].
  rewrite in_map_iff. intros (r' & Hkey & Hin).
  apply filter_In in Hin. apply Hnew. rewrite in_map_iff.
  exists r'. tauto.
Qed.

Lemma table_ok_delete {R : Type} (key : R -> Z) (t : Table R)
  (keep : R -> bool) :
  table_ok key t -> table_ok key (MkTable (filter keep (rows t)) (next_id t)).
Proof using.
  clear SECRET_KEY hs256.
  intros [Hnd Hlt]. split; simpl.
  - now apply keys_distinct_after_filter.
  - apply Forall_forall. intros r Hin. apply filter_In in Hin.
    exact (proj1 (Forall_forall _ _) Hlt r (proj1 Hin)).
Qed.

Lemma own_db_add {R : Type} (X : Model R) (mk : Z -> Z -> R) :
  lawful X -> (forall id now : Z, pk X (mk id now) = id) ->
  preserves (keeps (table X) (table_ok (pk X))) (db_add X mk).
Proof.
  intros [Hlens _] Hmk s [Hs Hp]. split; [exact Hs|]. simpl.
  rewrite Hlens. apply table_ok_add; [exact Hp | apply Hmk].
Qed.

Lemma own_db_update {R : Type} (X : Model R) (row : R) :
  lawful X -> preserves (keeps (table X) (table_ok (pk X))) (db_update X row).
Proof.
  intros [Hlens _] s [Hs Hp]. split; [exact Hs|]. simpl.
  rewrite Hlens. now apply table_ok_update.
Qed.

Lemma own_db_delete {R : Type} (X : Model R) (row : R) :
  lawful X -> preserves (keeps (table X) (table_ok (pk X))) (db_delete X row).
Proof using.
  clear SECRET_KEY hs256.
  intros [Hlens Horphan] s [Hs Hp]. unfold db_delete.
  destruct (orphan X (pk X row) (pending s)) as [db'|] eqn:E; simpl.
  - split; [exact Hs|]. simpl. rewrite Hlens, (Horphan _ _ _ E).
    now apply table_ok_delete.
  - now split.
Qed.

(** Deleting a user clears [purchased_by] on items and keeps their
    keys. *)
Lemma item_keys_db_delete_user (row : User.t) :
  preserves (keeps (table ToBuyItemT) (table_ok (pk ToBuyItemT)))
    (db_delete UserT row).
Proof.
  intros s [Hs Hp]. unfold db_delete. simpl. unfold orphan_user.
  destruct (existsb _ (rows (expenses (pending s)))); simpl; [now split|].
  destruct (existsb _ (rows (to_buy_items (pending s)))); simpl;
    [now split|].
  split; [exact Hs|]. simpl. destruct Hp as [Hnd Hlt].
  assert (Hid : forall i, ToBuyItem.id (nullify_purchased_by (User.id row) i)
                          = ToBuyItem.id i).
  { intros i. unfold nullify_purchased_by.
    destruct (ToBuyItem.purchased_by i) as [p|]; [|reflexivity].
    now destruct (p =? User.id row). }
  split; simpl.
  - rewrite map_map. erewrite map_ext; [exact Hnd|]. exact Hid.
  - apply Forall_forall. intros i' Hin. apply in_map_iff in Hin.
    destruct Hin as (i & <- & Hin). rewrite Hid.
    exact (proj1 (Forall_forall _ _) Hlt i Hin).
Qed.

#[local] Hint Extern 1 (lawful _) => solve_apart_fresh : linked.

#[local] Hint Resolve own_db_add own_db_update own_db_delete
  item_keys_db_delete_user : linked.

Ltac keys_preserved X :=
  match goal with
  | H : table_ok _ (_ ?db)
    |- table_ok _ (_ (stored (snd (?m (SessionLocal ?now [] ?db))))) =>
      let Hm := fresh "Hm" in
      assert (Hm : preserves (keeps (table X) (table_ok (pk X))) m);
      [ unfold startup_event, create_user, delete_user, create_category,
          delete_category, create_expense, delete_expense,
          create_to_buy_item, mark_item_purchased, delete_to_buy_item,
          update_settings, upsert_setting, get_users, get_categories,
          get_expenses, get_to_buy_items, get_settings;
        preserve
      | apply (Hm (SessionLocal now [] db)); split; exact H ]
  end.

Lemma primary_keys_preserved (now : Z) (op : Operation) (db : Database) :
  (table_ok User.id (users db) ->
   table_ok User.id (users (apply_op now op db)))
  /\ (table_ok Category.id (categories db) ->
      table_ok Category.id (categories (apply_op now op db)))
  /\ (table_ok Expense.id (expenses db) ->
      table_ok Expense.id (expenses (apply_op now op db)))
  /\ (table_ok ToBuyItem.id (to_buy_items db) ->
      table_ok ToBuyItem.id (to_buy_items (apply_op now op db)))
  /\ (table_ok Settings.id (settings db) ->
      table_ok Settings.id (settings (apply_op now op db))).
Proof using.
  clear SECRET_KEY hs256.
  unfold apply_op.
  split; [|split; [|split; [|split]]]; intros H; destruct op; simpl run;
    rewrite ?snd_void.
  all: first [ keys_preserved UserT | keys_preserved CategoryT
             | keys_preserved ExpenseT | keys_preserved ToBuyItemT
             | keys_preserved SettingsT ].
Qed.

Lemma categories_kept (now : Z) (op : Operation) (db : Database) :
  writes_categories op = false ->
  categories (apply_op now op db) = categories db.
Proof.
  intros Hop. unfold apply_op.
  destruct op; try discriminate; simpl run; rewrite ?snd_void;
    kept_by categories.
Qed.

Lemma settings_kept (now : Z) (op : Operation) (db : Database) :
  writes_settings op = false ->
  settings (apply_op now op db) = settings db.
Proof.
  intros Hop. unfold apply_op.
  destruct op; try discriminate; simpl run; rewrite ?snd_void;
    kept_by settings.
Qed.

Lemma unique_category_names_preserved (now : Z) (op : Operation)
  (db : Database) :
  NoDup (map Category.name (rows (categories db))) ->
  NoDup (map Category.name (rows (categories (apply_op now op db)))).
Proof using.
  clear SECRET_KEY hs256.
  intros Hu.
  destruct (writes_categories op) eqn:Hop;
    [|now rewrite categories_kept].
  destruct op; try discriminate.
  - rewrite startup_event_stored. simpl. unfold seed_categories.
    destruct (rows (categories db)) eqn:Hrows; simpl; [|now rewrite Hrows].
    repeat constructor; simpl; intuition discriminate.
  - unfold apply_op. simpl run. rewrite snd_void.
    unfold create_category. run_endpoint.
    destruct (find _ (rows (categories db))) as [c0|] eqn:Hfind; simpl;
      [exact Hu|].
    match goal with
    | |- context [find ?p ?l] => destruct (find p l)
    end; simpl; now apply NoDup_map_app_new.
  - unfold apply_op. simpl run. rewrite snd_void.
    unfold delete_category. run_endpoint.
    destruct (find _ (rows (categories db))) as [c0|]; simpl; [|exact Hu].
    unfold orphan_category.
    destruct (existsb _ (rows (expenses db))); simpl; [exact Hu|].
    now apply keys_distinct_after_filter.
  - unfold apply_op. simpl run. rewrite snd_void.
    rewrite mark_item_purchased_stored.
    destruct (find _ (rows (to_buy_items db))); [|exact Hu].
    destruct (find named_to_buy (rows (categories db))) eqn:Hcat; simpl;
      [exact Hu|].
    now apply NoDup_map_app_new.
Qed.

Lemma same_key_same_row {R : Type} (key : R -> Z) (l : list R) (a b : R) :
  NoDup (map key l) -> In a l -> In b l -> key a = key b -> a = b.
Proof.
  induction l as [|r l IH]; simpl; [contradiction|].
  intros Hnd Ha Hb Hkey. apply NoDup_cons_iff in Hnd.
  destruct Hnd as [Hnew Hnd].
  destruct Ha as [-> | Ha], Hb as [-> | Hb]; auto.
  - exfalso. apply Hnew. rewrite Hkey. now apply in_map.
  - exfalso. apply Hnew. rewrite <- Hkey. now apply in_map.
Qed.

Lemma upsert_setting_ok (key value : string) :
  preserves (keeps settings settings_ok) (upsert_setting key value).
Proof.
  intros s [Hs Hp]. unfold upsert_setting, bind, db_first. simpl.
  destruct (find _ (rows (settings (pending s)))) as [st|] eqn:Hfind; simpl.
  - destruct (Settings.value st =? value)%string; simpl; [now split|].
    split; [exact Hs|]. simpl. destruct Hp as [Hok Hkeys]. split.
    + exact (table_ok_update Settings.id _
               (Settings.Build (Settings.id st) (Settings.key st) value
                  (utcnow s)) Hok).
    + simpl. destruct (find_some _ _ Hfind) as [Hin _].
      erewrite map_map, map_ext_in; [exact Hkeys|].
      intros r Hr. simpl.
      destruct (Settings.id r =? Settings.id st) eqn:E; [|reflexivity].
      apply Z.eqb_eq in E.
      now rewrite (same_key_same_row Settings.id _ r st (proj1 Hok) Hr Hin E).
  - split; [exact Hs|]. simpl. destruct Hp as [Hok Hkeys]. split.
    + now apply table_ok_add.
    + simpl. now apply NoDup_map_app_new.
Qed.

Lemma settings_ok_preserved (now : Z) (op : Operation) (db : Database) :
  settings_ok (settings db) -> settings_ok (settings (apply_op now op db)).
Proof using.
  clear SECRET_KEY hs256.
  intros Hok.
  destruct (writes_settings op) eqn:Hop; [|now rewrite settings_kept].
  destruct op; try discriminate.
  - rewrite startup_event_stored. simpl. unfold seed_settings.
    destruct (rows (settings db)) eqn:Hrows; [|exact Hok].
    split; [split|]; simpl.
    + repeat constructor; simpl; intuition lia.
    + constructor; [simpl; lia | constructor; [simpl; lia | constructor]].
    + repeat constructor; simpl; intuition discriminate.
  - unfold apply_op. simpl run. rewrite snd_void.
    assert (Hm : preserves (keeps settings settings_ok)
                   (update_settings settings_update admin)).
    { unfold update_settings.
      apply preserves_bind; [apply upsert_setting_ok|]. intros _.
      apply preserves_bind; [apply upsert_setting_ok|]. intros _.
      preserve. }
    apply (Hm (SessionLocal now [] db)). now split.
Qed.

(** X14: the program keeps the constraints its models declare, by its
    own checks.  In every database reachable from the empty one (each
    request run to the end with its commits succeeding), the primary
    keys of each of the five tables are pairwise distinct and below
    the table's counter, and usernames, category names and setting
    keys are unique. *)
Theorem reachable_constraints_ok :
  forall db : Database, reachable any_operation db -> constraints_ok db.
Proof using.
  clear SECRET_KEY hs256.
  induction 1 as [|db now op _ IH _].
  - unfold constraints_ok, table_ok. simpl.
    repeat split; constructor.
  - destruct IH as (Hu & Hc & He & Hi & Hs & Hun & Hcn & Hsk).
    destruct (primary_keys_preserved now op db) as (Pu & Pc & Pe & Pi & Ps).
    destruct (settings_ok_preserved now op db (conj Hs Hsk)) as [_ Hsk'].
    unfold constraints_ok.
    repeat (split; [auto|]);
      [ now apply unique_usernames_preserved
      | now apply unique_category_names_preserved
      | exact Hsk' ].
Qed.

(** ** Updating and reading the settings *)

Lemma find_map {A B : Type} (f : A -> B) (p : B -> bool) (l : list A) :
  find p (map f l) = option_map f (find (fun a => p (f a)) l).
Proof.
  induction l as [|a l IH]; simpl; [reflexivity|].
  now destruct (p (f a)).
Qed.

Lemma find_agree {A : Type} (p q : A -> bool) (l : list A) :
  (forall a : A, In a l -> p a = q a) -> find p l = find q l.
Proof.
  induction l as [|a l IH]; simpl; [reflexivity|]. intros H.
  rewrite (H a) by now left. rewrite IH; [reflexivity|].
  intros b Hb. apply H. now right.
Qed.

Lemma find_app_old {A : Type} (p : A -> bool) (l : list A) (x : A) :
  p x = false -> find p (l ++ [x]) = find p l.
Proof.
  intros Hx. induction l as [|a l IH]; simpl.
  - now rewrite Hx.
  - now destruct (p a).
Qed.

(** What one upsert does to the pending settings. *)
Lemma upsert_setting_sets (k v : string) (s : Session) :
  settings_ok (settings (pending s)) ->
  let s' := snd (upsert_setting k v s) in
  fst (upsert_setting k v s) = Returned tt
  /\ setting k s' = Some v
  /\ (forall k' : string, k' <> k -> setting k' s' = setting k' s)
  /\ same_but_pending s s'.
Proof.
  intros [[Hnd Hlt] Hkeys]. unfold setting, upsert_setting, bind, db_first.
  simpl.
  destruct (find _ (rows (settings (pending s)))) as [st|] eqn:Hfind; simpl.
  - destruct (find_some _ _ Hfind) as [Hin Hk]. apply String.eqb_eq in Hk.
    destruct (Settings.value st =? v)%string eqn:Hv; simpl.
    + apply String.eqb_eq in Hv. rewrite Hfind. simpl. rewrite Hv.
      repeat split.
    + assert (Hsame : forall r, In r (rows (settings (pending s))) ->
                (Settings.id r =? Settings.id st) = true -> r = st).
      { intros r Hr E. apply Z.eqb_eq in E.
        exact (same_key_same_row Settings.id _ r st Hnd Hr Hin E). }
      split; [reflexivity|]. split; [|split; [|repeat split]].
      * rewrite find_map.
        erewrite find_agree; [rewrite Hfind|]; simpl.
        -- now rewrite Z.eqb_refl.
        -- intros r Hr. simpl.
           destruct (Settings.id r =? Settings.id st) eqn:E; [|reflexivity].
           rewrite (Hsame r Hr E). simpl. now rewrite Hk.
      * intros k' Hk'. rewrite find_map.
        assert (Hno : (Settings.key st =? k')%string = false)
          by (apply String.eqb_neq; congruence).
        erewrite find_agree with
          (q := fun r => (Settings.key r =? k')%string).
        -- destruct (find (fun r => (Settings.key r =? k')%string)
                      (rows (settings (pending s)))) as [r|] eqn:Hr;
             [|reflexivity].
           simpl. destruct (find_some _ _ Hr) as [Hrin Hrk].
           destruct (Settings.id r =? Settings.id st) eqn:E; [|reflexivity].
           rewrite (Hsame r Hrin E) in Hrk. congruence.
        -- intros r Hr. simpl.
           destruct (Settings.id r =? Settings.id st) eqn:E; [|reflexivity].
           rewrite (Hsame r Hr E). simpl. now rewrite Hno.
  - split; [reflexivity|]. split; [|split; [|repeat split]].
    + rewrite find_app_none; [reflexivity | exact Hfind |].
      simpl. apply String.eqb_refl.
    + intros k' Hk'. rewrite find_app_old; [reflexivity|].
      simpl. apply String.eqb_neq. congruence.
Qed.

Lemma update_settings_stored (now : Z) (db : Database)
  (settings_update : SettingsUpdate.t) (admin : User.t) :
  settings_ok (settings db) ->
  exists s2 : Session,
    apply_op now (UpdateSettings settings_update admin) db = pending s2
    /\ setting "currency_symbol" s2
       = Some (SettingsUpdate.currency_symbol settings_update)
    /\ setting "home_name" s2
       = Some (SettingsUpdate.home_name settings_update)
    /\ (forall k : string,
          k <> "currency_symbol" -> k <> "home_name" ->
          setting k s2 = setting k (SessionLocal now [] db)).
Proof.
  intros Hok. set (s0 := SessionLocal now [] db).
  pose proof (upsert_setting_sets "currency_symbol"
                (SettingsUpdate.currency_symbol settings_update) s0 Hok)
    as (R1 & V1 & F1 & P1).
  pose proof (upsert_setting_ok "currency_symbol"
                (SettingsUpdate.currency_symbol settings_update) s0
                (conj Hok Hok)) as [_ Hok1].
  pose proof (upsert_setting_sets "home_name"
                (SettingsUpdate.home_name settings_update) _ Hok1)
    as (R2 & V2 & F2 & P2).
  unfold apply_op. simpl run. rewrite snd_void.
  unfold update_settings, bind. fold s0.
  destruct (upsert_setting "currency_symbol"
              (SettingsUpdate.currency_symbol settings_update) s0)
    as [r1 s1]. simpl in *. subst r1.
  destruct (upsert_setting "home_name"
              (SettingsUpdate.home_name settings_update) s1)
    as [r2 s2]. simpl in *. subst r2.
  destruct P1 as (_ & _ & Hf1 & He1 & _), P2 as (_ & _ & Hf2 & He2 & _).
  exists s2. split; [|split; [|split]].
  - unfold db_commit. rewrite He2, He1, Hf2, Hf1. reflexivity.
  - rewrite F2 by discriminate. exact V1.
  - exact V2.
  - intros k Hc Hh. rewrite F2, F1 by assumption. reflexivity.
Qed.

(** X15: after [update_settings] (settings keys and their primary
    keys being unique, commit succeeding) the mapping that
    [get_settings] returns holds the submitted currency symbol under
    "currency_symbol" and the submitted home name under "home_name",
    whether the rows existed before or not, and every other key keeps
    the value it had. *)
Theorem update_settings_then_get_settings :
  forall (now later : Z) (db : Database) (settings_update : SettingsUpdate.t)
         (admin reader : User.t),
    settings_ok (settings db) ->
    let db' := apply_op now (UpdateSettings settings_update admin) db in
    exists l : list (string * string),
      get_settings reader (SessionLocal later [] db')
      = (Returned l, SessionLocal later [] db')
      /\ lookup "currency_symbol" l
         = Some (SettingsUpdate.currency_symbol settings_update)
      /\ lookup "home_name" l
         = Some (SettingsUpdate.home_name settings_update)
      /\ (forall k : string,
            k <> "currency_symbol" -> k <> "home_name" ->
            lookup k l = setting k (SessionLocal now [] db)).
Proof.
  intros now later db settings_update admin reader Hok db'.
  destruct (update_settings_stored now db settings_update admin Hok)
    as (s2 & Hdb & Hc & Hh & Hother).
  unfold db'. rewrite Hdb.
  exists (map (fun r => (Settings.key r, Settings.value r))
            (filter query_all (rows (settings (pending s2))))).
  split; [reflexivity|].
  assert (Hlook : forall k,
            lookup k
              (map (fun r => (Settings.key r, Settings.value r))
                 (filter query_all (rows (settings (pending s2)))))
            = setting k s2).
  { intros k. unfold lookup, setting. rewrite filter_query_all, find_map.
    simpl. now destruct (find _ (rows (settings (pending s2)))). }
  rewrite !Hlook. split; [exact Hc|]. split; [exact Hh|].
  intros k Hk1 Hk2. rewrite Hlook. now apply Hother.
Qed.

(** ** Deleting twice *)

Lemma find_after_delete {R : Type} (key : R -> Z) (k : Z) (l : list R) :
  find (fun r => key r =? k) (filter (fun r => negb (key r =? k)) l) = None.
Proof.
  induction l as [|r l IH]; simpl; [reflexivity|].
  destruct (key r =? k) eqn:E; simpl; [exact IH|]. now rewrite E.
Qed.

(** X16: [delete_expense] and [delete_to_buy_item] on a stored key
    answer with their message and store the table without the rows
    of that key, every other row in its place; the key is then
    absent, so the same delete sent again answers 404. *)
Theorem delete_then_not_found :
  forall (now later : Z) (db : Database) (k : Z) (u again : User.t),
    (truthy (find (fun e => Expense.id e =? k) (rows (expenses db))) = true ->
     let s' := snd (delete_expense k u (SessionLocal now [] db)) in
     fst (delete_expense k u (SessionLocal now [] db))
     = Returned "Expense deleted successfully"
     /\ rows (expenses (stored s'))
        = filter (fun e => negb (Expense.id e =? k)) (rows (expenses db))
     /\ delete_expense k again (SessionLocal later [] (stored s'))
        = (Raised (not_found "Expense"), SessionLocal later [] (stored s')))
    /\ (truthy (find (fun i => ToBuyItem.id i =? k) (rows (to_buy_items db)))
        = true ->
        let s' := snd (delete_to_buy_item k u (SessionLocal now [] db)) in
        fst (delete_to_buy_item k u (SessionLocal now [] db))
        = Returned "Item deleted successfully"
        /\ rows (to_buy_items (stored s'))
           = filter (fun i => negb (ToBuyItem.id i =? k))
               (rows (to_buy_items db))
        /\ delete_to_buy_item k again (SessionLocal later [] (stored s'))
           = (Raised (not_found "Item"), SessionLocal later [] (stored s'))).
Proof.
  intros now later db k u again. split.
  - unfold delete_expense, bind, db_first, db_delete, db_commit, ret. simpl.
    destruct (find _ (rows (expenses db))) as [e|] eqn:Hfind;
      [|discriminate].
    intros _. simpl.
    assert (Hid : Expense.id e = k).
    { destruct (find_some _ _ Hfind) as [_ H]. now apply Z.eqb_eq. }
    rewrite Hid. repeat split.
    now rewrite (find_after_delete Expense.id k).
  - unfold delete_to_buy_item, bind, db_first, db_delete, db_commit, ret.
    simpl.
    destruct (find _ (rows (to_buy_items db))) as [i|] eqn:Hfind;
      [|discriminate].
    intros _. simpl.
    assert (Hid : ToBuyItem.id i = k).
    { destruct (find_some _ _ Hfind) as [_ H]. now apply Z.eqb_eq. }
    rewrite Hid. repeat split.
    now rewrite (find_after_delete ToBuyItem.id k).
Qed.

End Api.

(** ** The statements at sample requests *)

Lemma mark_item_purchased_creates_expense_witness :
  find (fun i => ToBuyItem.id i =? 1) (rows (to_buy_items milk_db)) = Some milk
  /\ exists (s' : Session),
       mark_item_purchased 1 milk_purchase user1
         (SessionLocal 100 [] milk_db)
       = (Returned
            (ToBuyItem.Build 1 "Milk" (Some "2 l") "2024-03-01" "medium" None
               2 true (Some 2) (Some 3.25%float) (Some "cash")
               (Some "2024-03-02") 0), s')
       /\ exists (category : Category.t),
            rows (expenses (stored s'))
            = [Expense.Build 1 3.25%float (Category.id category) "cash" 2
                 "2024-03-02" "12:00" (Some "Purchase: Milk") 100]
            /\ find named_to_buy (rows (categories (stored s')))
               = Some category.
Proof.
  split; [reflexivity|].
  destruct (mark_item_purchased_creates_expense 100 milk_db 1 milk_purchase
              user1 milk eq_refl)
    as (s' & category & bought & Hrun & _ & Hp & Hby & Hamount & Hmode
        & Hdate & Hid & Hname & Hq & Ht & Hpr & Hn & Hc & Hat & _ & Hexp
        & Hcat & _).
  exists s'. split.
  - rewrite Hrun. destruct bought. simpl in *. now subst.
  - exists category. split; [exact Hexp | exact Hcat].
Defined.

Lemma purchased_items_keep_an_expense_witness :
  reachable not_delete_expense milk_bought_twice_db
  /\ purchases_have_expense milk_bought_twice_db.
Proof.
  assert (R : reachable not_delete_expense milk_bought_twice_db).
  { apply reach_step; [|reflexivity].
    apply milk_bought_reachable; reflexivity. }
  split; [exact R | exact (purchased_items_keep_an_expense _ R)].
Defined.

Lemma login_then_get_current_user_witness :
  unique_usernames seeded_db
  /\ In user1 (rows (users seeded_db))
  /\ credentials_match user1_login user1
  /\ login sample_key sample_mac user1_login (SessionLocal 0 [] seeded_db)
     = (Returned (MkTokenResponse user1_token "bearer" user1),
        SessionLocal 0 [] seeded_db)
  /\ get_current_user sample_key sample_mac user1_token
       (SessionLocal 0 [] seeded_db)
     = (Returned user1, SessionLocal 0 [] seeded_db).
Proof.
  assert (Huniq : unique_usernames seeded_db).
  { unfold unique_usernames. simpl.
    repeat constructor; simpl; intuition discriminate. }
  assert (Hin : In user1 (rows (users seeded_db)))
    by (simpl; right; left; reflexivity).
  assert (Hm : credentials_match user1_login user1) by (split; reflexivity).
  repeat (split; [assumption|]).
  destruct (login_then_get_current_user sample_key sample_mac user1_login
              user1 (SessionLocal 0 [] seeded_db) Huniq Hin Hm)
    as (token & Hlogin & Hget & _).
  assert (Ht : token = user1_token).
  { pose proof Hlogin as H. vm_compute in H. injection H as H.
    symmetry. exact H. }
  subst token. split; assumption.
Defined.

Lemma get_current_user_rejects_token_witness :
  (lifetime_passed sample_key sample_mac user1_token
     (SessionLocal 86400 [] seeded_db)
   /\ get_current_user sample_key sample_mac user1_token
        (SessionLocal 86400 [] seeded_db)
      = (Raised invalid_or_expired_token, SessionLocal 86400 [] seeded_db))
  /\ (signature_fails sample_key sample_mac forged_token
      /\ get_current_user sample_key sample_mac forged_token
           (SessionLocal 0 [] seeded_db)
         = (Raised invalid_or_expired_token, SessionLocal 0 [] seeded_db))
  /\ (user_is_gone sample_key sample_mac ghost_token
        (SessionLocal 0 [] seeded_db)
      /\ get_current_user sample_key sample_mac ghost_token
           (SessionLocal 0 [] seeded_db)
         = (Raised token_user_not_found, SessionLocal 0 [] seeded_db)).
Proof.
  assert (H1 : lifetime_passed sample_key sample_mac user1_token
                 (SessionLocal 86400 [] seeded_db)).
  { exists (MkPayload (Some "user1") None), (SessionLocal 0 [] seeded_db).
    split; [reflexivity|]. vm_compute. discriminate. }
  assert (H2 : signature_fails sample_key sample_mac forged_token).
  { exists "HS256", user1_payload, "forged".
    split; [reflexivity|]. vm_compute. discriminate. }
  assert (H3 : user_is_gone sample_key sample_mac ghost_token
                 (SessionLocal 0 [] seeded_db)).
  { exists "ghost". split; [reflexivity|].
    simpl. intros u [<-|[<-|[<-|[]]]]; discriminate. }
  split; [split; [exact H1|] | split; [split; [exact H2|] | split; [exact H3|]]].
  - destruct (get_current_user_rejects_token sample_key sample_mac
                user1_token (SessionLocal 86400 [] seeded_db)
                (or_introl H1)) as (e & He & _ & [-> | ->]);
      [exact He | vm_compute in He; discriminate He].
  - destruct (get_current_user_rejects_token sample_key sample_mac
                forged_token (SessionLocal 0 [] seeded_db)
                (or_intror (or_introl H2))) as (e & He & _ & [-> | ->]);
      [exact He | vm_compute in He; discriminate He].
  - destruct (get_current_user_rejects_token sample_key sample_mac
                ghost_token (SessionLocal 0 [] seeded_db)
                (or_intror (or_intror H3))) as (e & He & _ & [-> | ->]);
      [vm_compute in He; discriminate He | exact He].
Defined.

Lemma get_expenses_date_range_witness :
  date_range_listing None (Some 2) (Some "upi") "2024-01-01" "2024-01-31"
    user1 (SessionLocal 0 [] two_expenses_db).
Proof.
  apply get_expenses_date_range; discriminate.
Defined.

Lemma admin_routes_forbidden_for_non_admin_witness :
  get_current_user sample_key sample_mac user1_token
    (SessionLocal 100 [] seeded_db)
  = (Returned user1, SessionLocal 100 [] seeded_db)
  /\ User.role user1 <> "admin"
  /\ api_delete_user sample_key sample_mac user1_token 1
       (SessionLocal 100 [] seeded_db)
     = (Raised admin_access_required, SessionLocal 100 [] seeded_db)
  /\ api_update_settings sample_key sample_mac user1_token
       (SettingsUpdate.Build "$" "Our Home") (SessionLocal 100 [] seeded_db)
     = (Raised admin_access_required, SessionLocal 100 [] seeded_db).
Proof.
  assert (Hu : get_current_user sample_key sample_mac user1_token
                 (SessionLocal 100 [] seeded_db)
               = (Returned user1, SessionLocal 100 [] seeded_db))
    by reflexivity.
  assert (Hrole : User.role user1 <> "admin") by discriminate.
  destruct (admin_routes_forbidden_for_non_admin sample_key sample_mac
              user1_token (SessionLocal 100 [] seeded_db) user1 Hu Hrole)
    as (_ & Hdel & _ & Hset & _).
  split; [exact Hu|]. split; [exact Hrole|]. split; [apply Hdel | apply Hset].
Defined.

Lemma create_expense_no_referential_check_witness :
  keys_below ExpenseT two_expenses_db
  /\ fst (create_expense dangling_expense user1
            (SessionLocal 50 [] two_expenses_db))
     = Returned (expense_of dangling_expense 3 50)
  /\ rows (expenses
             (stored (snd (create_expense dangling_expense user1
                             (SessionLocal 50 [] two_expenses_db)))))
     = [rent_january; groceries_february; expense_of dangling_expense 3 50].
Proof.
  assert (Hkeys : keys_below ExpenseT two_expenses_db)
    by (repeat constructor).
  destruct (create_expense_no_referential_check 50 two_expenses_db
              dangling_expense user1 Hkeys) as [Hrun _].
  split; [exact Hkeys|]. rewrite Hrun. split; reflexivity.
Defined.

Lemma mark_item_purchased_not_found_witness :
  absent ToBuyItemT 7 (SessionLocal 5 [] milk_db)
  /\ mark_item_purchased 7 milk_purchase user1 (SessionLocal 5 [] milk_db)
     = (Raised (not_found "Item"), SessionLocal 5 [] milk_db).
Proof.
  assert (H : absent ToBuyItemT 7 (SessionLocal 5 [] milk_db))
    by reflexivity.
  split; [exact H|].
  exact (mark_item_purchased_not_found 7 milk_purchase user1 _ H).
Defined.

Lemma delete_not_found_witness :
  absent ExpenseT 9 (SessionLocal 5 [] two_expenses_db)
  /\ delete_expense 9 user1 (SessionLocal 5 [] two_expenses_db)
     = (Raised (not_found "Expense"), SessionLocal 5 [] two_expenses_db)
  /\ absent UserT 9 (SessionLocal 5 [] seeded_db)
  /\ delete_user 9 user1 (SessionLocal 5 [] seeded_db)
     = (Raised (not_found "User"), SessionLocal 5 [] seeded_db).
Proof.
  assert (H1 : absent ExpenseT 9 (SessionLocal 5 [] two_expenses_db))
    by reflexivity.
  assert (H2 : absent UserT 9 (SessionLocal 5 [] seeded_db)) by reflexivity.
  split; [exact H1|]. split.
  - exact (proj1 (proj2 (proj2
             (delete_not_found 9 user1 (SessionLocal 5 [] two_expenses_db))))
             H1).
  - split; [exact H2|].
    exact (proj1 (delete_not_found 9 user1 (SessionLocal 5 [] seeded_db)) H2).
Defined.

Lemma create_category_duplicate_or_listed_witness :
  keys_below CategoryT seeded_db
  /\ fst (create_category pantry user1 (SessionLocal 40 [] seeded_db))
     = Returned (category_of pantry 6 40)
  /\ create_category rent_again user1 (SessionLocal 40 [] seeded_db)
     = (Raised (MkHTTPException 400 "Category already exists" []),
        SessionLocal 40 [] seeded_db).
Proof.
  assert (Hkeys : keys_below CategoryT seeded_db) by (repeat constructor).
  split; [exact Hkeys|]. split.
  - pose proof (create_category_duplicate_or_listed 40 seeded_db pantry user1
                  Hkeys) as H.
    simpl in H. destruct H as [H _]. now rewrite H.
  - exact (create_category_duplicate_or_listed 40 seeded_db rent_again user1
             Hkeys).
Defined.

Lemma create_user_then_login_witness :
  keys_below UserT seeded_db
  /\ exists token : Token,
       login sample_key sample_mac (UserLogin.Build "carol" "s3cret")
         (SessionLocal 90 [] (inserted UserT (user_of carol 4 40) seeded_db))
       = (Returned (MkTokenResponse token "bearer" (user_of carol 4 40)),
          SessionLocal 90 [] (inserted UserT (user_of carol 4 40) seeded_db)).
Proof.
  assert (Hkeys : keys_below UserT seeded_db) by (repeat constructor).
  split; [exact Hkeys|].
  pose proof (create_user_then_login sample_key sample_mac 40 90 seeded_db
                carol user1 Hkeys) as H.
  simpl in H. destruct H as [_ H]. exact H.
Defined.


Lemma token_resolves_to_current_record_witness :
  login sample_key sample_mac user1_login (SessionLocal 0 [] seeded_db)
  = (Returned (MkTokenResponse user1_token "bearer" user1),
     SessionLocal 0 [] seeded_db)
  /\ unique_usernames renamed_db
  /\ In (user_of user1_again 4 70) (rows (users renamed_db))
  /\ get_current_user sample_key sample_mac user1_token
       (SessionLocal 100 [] renamed_db)
     = (Returned (user_of user1_again 4 70), SessionLocal 100 [] renamed_db).
Proof.
  assert (Hlogin :
            login sample_key sample_mac user1_login (SessionLocal 0 [] seeded_db)
            = (Returned (MkTokenResponse user1_token "bearer" user1),
               SessionLocal 0 [] seeded_db)) by reflexivity.
  assert (Huniq : unique_usernames renamed_db).
  { unfold unique_usernames. vm_compute.
    repeat constructor; simpl; intuition discriminate. }
  assert (Hin : In (user_of user1_again 4 70) (rows (users renamed_db))).
  { vm_compute. right. right. left. reflexivity. }
  split; [exact Hlogin|]. split; [exact Huniq|]. split; [exact Hin|].
  apply (token_resolves_to_current_record sample_key sample_mac user1_login
           (SessionLocal 0 [] seeded_db)
           (MkTokenResponse user1_token "bearer" user1)
           (SessionLocal 100 [] renamed_db) (user_of user1_again 4 70)
           Hlogin); [reflexivity | exact Huniq | exact Hin | reflexivity].
Defined.

Lemma single_commit_all_or_nothing_witness :
  commits_once (UpdateSettings dollar_home admin_user) = true
  /\ stored (snd (run (UpdateSettings dollar_home admin_user)
                    (SessionLocal 5 [true] seeded_db)))
     = seeded_db.
Proof.
  split; [reflexivity|].
  destruct (single_commit_all_or_nothing 5 [true] seeded_db
              (UpdateSettings dollar_home admin_user) eq_refl)
    as [[H _] | [_ H]]; [exact H | discriminate H].
Defined.

Lemma create_to_buy_item_listed_unpurchased_witness :
  keys_below ToBuyItemT milk_db
  /\ create_to_buy_item milk_item user1 (SessionLocal 9 [] milk_db)
     = (Returned (item_of milk_item 2 2 9),
        committed_once 9 (inserted ToBuyItemT (item_of milk_item 2 2 9)
                            milk_db)).
Proof.
  assert (Hkeys : keys_below ToBuyItemT milk_db) by (repeat constructor).
  split; [exact Hkeys|].
  exact (proj1 (create_to_buy_item_listed_unpurchased 9 10 milk_db milk_item
                  user1 user1 Hkeys)).
Defined.

Lemma routes_need_a_resolved_token_witness :
  get_current_user sample_key sample_mac forged_token
    (SessionLocal 0 [] seeded_db)
  = (Raised invalid_or_expired_token, SessionLocal 0 [] seeded_db)
  /\ api_get_users sample_key sample_mac forged_token
       (SessionLocal 0 [] seeded_db)
     = (Raised invalid_or_expired_token, SessionLocal 0 [] seeded_db)
  /\ api_mark_item_purchased sample_key sample_mac forged_token 1
       milk_purchase (SessionLocal 0 [] seeded_db)
     = (Raised invalid_or_expired_token, SessionLocal 0 [] seeded_db).
Proof.
  assert (H : get_current_user sample_key sample_mac forged_token
                (SessionLocal 0 [] seeded_db)
              = (Raised invalid_or_expired_token,
                 SessionLocal 0 [] seeded_db)) by reflexivity.
  pose proof (routes_need_a_resolved_token sample_key sample_mac
                forged_token (SessionLocal 0 [] seeded_db)
                invalid_or_expired_token H) as R.
  split; [exact H|]. split.
  - exact (proj1 (proj2 R)).
  - destruct R as (_ & _ & _ & _ & _ & _ & _ & _ & _ & _ & _ & _ & Hm & _).
    exact (Hm 1 milk_purchase).
Defined.

Lemma reachable_constraints_ok_witness :
  reachable any_operation expense_deleted_db
  /\ constraints_ok expense_deleted_db.
Proof.
  assert (R : reachable any_operation expense_deleted_db).
  { apply reach_step; [|reflexivity].
    apply milk_bought_reachable; reflexivity. }
  split; [exact R | exact (reachable_constraints_ok _ R)].
Defined.

Lemma update_settings_then_get_settings_witness :
  settings_ok (settings seeded_db)
  /\ exists l : list (string * string),
       get_settings user1
         (SessionLocal 8 []
            (apply_op 7 (UpdateSettings dollar_home admin_user) seeded_db))
       = (Returned l,
          SessionLocal 8 []
            (apply_op 7 (UpdateSettings dollar_home admin_user) seeded_db))
       /\ lookup "currency_symbol" l = Some "$"
       /\ lookup "home_name" l = Some "Our Home".
Proof.
  assert (Hok : settings_ok (settings seeded_db)).
  { split; [split|]; simpl.
    - repeat constructor; simpl; intuition discriminate.
    - repeat constructor.
    - repeat constructor; simpl; intuition discriminate. }
  split; [exact Hok|].
  destruct (update_settings_then_get_settings 7 8 seeded_db dollar_home
              admin_user user1 Hok) as (l & Hget & Hc & Hh & _).
  exists l. split; [exact Hget|]. split; [exact Hc | exact Hh].
Defined.

Lemma delete_then_not_found_witness :
  truthy (find (fun e => Expense.id e =? 1) (rows (expenses two_expenses_db)))
  = true
  /\ rows (expenses
             (stored (snd (delete_expense 1 user1
                             (SessionLocal 3 [] two_expenses_db)))))
     = [groceries_february].
Proof.
  split; [reflexivity|].
  destruct (proj1 (delete_then_not_found 3 4 two_expenses_db 1 user1 user1)
              eq_refl) as (_ & H & _).
  rewrite H. reflexivity.
Defined.
